(** * csecu-data / addiction_nexus: the snowflake knowledge-graph generator
      and the OLAP query benchmark

    Shallow embedding of
    - [src/addiction_nexus/generate_snowflake_ttl.py] (TBox and ABox
      construction, dimension normalisation through per-dimension dicts);
    - [src/addiction_nexus/QueryBenchmark.py] (query catalog, timing of a
      query, subsampling of the loaded graph, the benchmark loops).

    An RDF graph is a finite set of triples ([gset]); the Python dicts are
    finite maps ([gmap]); a DataFrame row is a finite map from column names
    to the text of the cell; exceptions are values of [exn]; the graphs that
    the benchmark allocates and fills live in a store indexed by object
    identity. *)

From Stdlib Require Import ZArith QArith String Ascii List.
From Stdlib Require Import DecimalString DecimalNat.
From stdpp Require Import gmap mapset strings list fin_maps sets.

Local Open Scope string_scope.
Local Open Scope Z_scope.
Local Open Scope nat_scope.

(** ** Python string primitives used by the two scripts *)

Module Py.

(** [s.startswith(pat)] *)
Fixpoint startswith (pat s : string) : bool :=
  match pat, s with
  | EmptyString, _ => true
  | String _ _, EmptyString => false
  | String a pat', String b s' => bool_decide (a = b) && startswith pat' s'
  end.

(** [pat in s] on [str]: [pat] occurs at some offset of [s]. *)
Fixpoint str_in (pat s : string) : bool :=
  startswith pat s ||
  match s with
  | EmptyString => false
  | String _ s' => str_in pat s'
  end.

(** [c in s] for a single character. *)
Fixpoint has_char (c : ascii) (s : string) : bool :=
  match s with
  | EmptyString => false
  | String a s' => bool_decide (a = c) || has_char c s'
  end.

(** [pat.endswith(c)] for a single character. *)
Fixpoint ends_with (c : ascii) (pat : string) : bool :=
  match pat with
  | EmptyString => false
  | String a EmptyString => bool_decide (a = c)
  | String _ pat' => ends_with c pat'
  end.

(** [s.split(sep)] for a one-character separator: never the empty list. *)
Fixpoint split (sep : ascii) (s : string) : list string :=
  match s with
  | EmptyString => [EmptyString]
  | String c s' =>
      if bool_decide (c = sep) then EmptyString :: split sep s'
      else match split sep s' with
           | h :: t => String c h :: t
           | [] => [String c EmptyString]
           end
  end.

(** [l[-1]] on the result of [split]. *)
Definition last_item (l : list string) : string := default EmptyString (last l).

(** The white space [int()] strips from ASCII text: the characters 9 to 13
    and the blank. *)
Definition is_space (a : ascii) : bool :=
  let n := nat_of_ascii a in
  ((9 <=? n) && (n <=? 13)) || (n =? 32).

Definition digit_of (a : ascii) : option Z :=
  let n := nat_of_ascii a in
  if (48 <=? n) && (n <=? 57) then Some (Z.of_nat (n - 48)) else None.

Fixpoint lstrip (s : string) : string :=
  match s with
  | String a s' => if is_space a then lstrip s' else s
  | EmptyString => EmptyString
  end.

Fixpoint rstrip (s : string) : string :=
  match s with
  | EmptyString => EmptyString
  | String a s' =>
      match rstrip s' with
      | EmptyString => if is_space a then EmptyString else String a EmptyString
      | r => String a r
      end
  end.

Definition strip (s : string) : string := rstrip (lstrip s).

(** Digits with single underscores between them, as [int()] reads them;
    [prev] tells whether the previous character was a digit. *)
Fixpoint digits_val (acc : Z) (prev : bool) (s : string) : option Z :=
  match s with
  | EmptyString => if prev then Some acc else None
  | String c s' =>
      match digit_of c with
      | Some d => digits_val (10 * acc + d)%Z true s'
      | None =>
          if bool_decide (c = "_"%char) && prev then digits_val acc false s'
          else None
      end
  end.

(** The number of decimal digits of a text. *)
Fixpoint count_digits (s : string) : Z :=
  match s with
  | EmptyString => 0%Z
  | String c s' =>
      (match digit_of c with Some _ => 1 | None => 0 end + count_digits s')%Z
  end.

(** [int(s)] in base ten on ASCII text, with CPython's default limit of
    4300 digits; [None] stands for [ValueError]. The builtin also reads
    digits and white space outside ASCII: the benchmark below takes it as a
    parameter, and this reader stands for it in the examples only, whose
    texts are ASCII. *)
Definition int_ascii (s : string) : option Z :=
  match strip s with
  | String a r =>
      if (4300 <? count_digits (String a r))%Z then None
      else if bool_decide (a = "-"%char) then Z.opp <$> digits_val 0 false r
      else if bool_decide (a = "+"%char) then digits_val 0 false r
      else digits_val 0 false (String a r)
  | EmptyString => None
  end.

(** [str(n)] / [f'{n}'] for a non-negative [int]. *)
Definition str_of_nat (n : nat) : string :=
  NilEmpty.string_of_uint (Nat.to_uint n).

End Py.

(** ** RDF terms, namespaces and graphs (rdflib's [URIRef], [Literal],
       [Namespace], [Graph]) *)

Inductive term : Type :=
  | URIRef (iri : string)
  | Literal (lexical : string) (datatype : option string) (lang : option string).

Definition triple : Type := term * term * term.

Global Instance term_eq_dec : EqDecision term.
Proof. solve_decision. Defined.

Definition term_to_sum (t : term) : string + string * option string * option string :=
  match t with
  | URIRef i => inl i
  | Literal l d g => inr (l, d, g)
  end.

Definition term_of_sum (x : string + string * option string * option string) : term :=
  match x with
  | inl i => URIRef i
  | inr (l, d, g) => Literal l d g
  end.

Global Instance term_countable : Countable term.
Proof.
  apply (inj_countable' term_to_sum term_of_sum).
  intros []; reflexivity.
Defined.

(** A [Graph] holds a set of triples. *)
Abbreviation graph := (gset triple).

(** [g.add((s, p, o))]: the triple is inserted into the store; adding a
    triple the graph already holds changes nothing. *)
Definition add (t : triple) (g : graph) : graph :=
  let (store) := g in Mapset (<[ t := () ]> store).

Definition subject (t : triple) : term := t.1.1.
Definition predicate (t : triple) : term := t.1.2.
Definition object (t : triple) : term := t.2.

(** [str(s)] of a node: the IRI text, or the lexical form of a literal. *)
Definition str (t : term) : string :=
  match t with
  | URIRef i => i
  | Literal l _ _ => l
  end.

Definition MH_ns : string := "http://example.org/mental_health#".
Definition WD_ns : string := "http://www.wikidata.org/entity/".
Definition EX_ns : string := "http://example.org/ontology#".
Definition RDF_ns : string := "http://www.w3.org/1999/02/22-rdf-syntax-ns#".
Definition RDFS_ns : string := "http://www.w3.org/2000/01/rdf-schema#".
Definition OWL_ns : string := "http://www.w3.org/2002/07/owl#".
Definition QB_ns : string := "http://purl.org/linked-data/cube#".
Definition SKOS_ns : string := "http://www.w3.org/2004/02/skos/core#".
Definition XSD_ns : string := "http://www.w3.org/2001/XMLSchema#".

(** [NS.name] and [NS[name]]: the namespace text followed by the name. *)
Definition MH (name : string) : term := URIRef (MH_ns +:+ name).
Definition WD (name : string) : term := URIRef (WD_ns +:+ name).
Definition EX (name : string) : term := URIRef (EX_ns +:+ name).
Definition RDF (name : string) : term := URIRef (RDF_ns +:+ name).
Definition RDFS (name : string) : term := URIRef (RDFS_ns +:+ name).
Definition OWL (name : string) : term := URIRef (OWL_ns +:+ name).
Definition QB (name : string) : term := URIRef (QB_ns +:+ name).
Definition SKOS (name : string) : term := URIRef (SKOS_ns +:+ name).
Definition XSD (name : string) : term := URIRef (XSD_ns +:+ name).

(** The datatype IRIs the generator attaches to literals. *)
Definition XSD_integer : string := XSD_ns +:+ "integer".
Definition XSD_float : string := XSD_ns +:+ "float".

(** ** generate_snowflake_ttl.py, step 3: the TBox (lines 43-163), in the
       order of the [tbox.add] calls *)

Definition tbox_triples : list triple := [
    (MH "Person", RDF "type", OWL "Class");
    (MH "Person", RDFS "label", Literal "Person" None (Some "en"));
    (MH "Person", RDFS "comment", Literal "Represents an individual with demographic attributes." None None);
    (MH "MentalHealth", RDF "type", OWL "Class");
    (MH "MentalHealth", RDFS "label", Literal "Mental Health" None (Some "en"));
    (MH "MentalHealth", RDFS "comment", Literal "Captures mental health condition details." None None);
    (MH "Lifestyle", RDF "type", OWL "Class");
    (MH "Lifestyle", RDFS "label", Literal "Lifestyle" None (Some "en"));
    (MH "Lifestyle", RDFS "comment", Literal "Captures lifestyle factors like diet, smoking." None None);
    (MH "Gender", RDF "type", OWL "Class");
    (MH "Occupation", RDF "type", OWL "Class");
    (MH "Country", RDF "type", OWL "Class");
    (MH "Severity", RDF "type", OWL "Class");
    (MH "Consultation", RDF "type", OWL "Class");
    (MH "StressLevel", RDF "type", OWL "Class");
    (MH "Medication", RDF "type", OWL "Class");
    (MH "DietQuality", RDF "type", OWL "Class");
    (MH "SmokingHabit", RDF "type", OWL "Class");
    (MH "AlcoholConsumption", RDF "type", OWL "Class");
    (MH "Measurement", RDF "type", QB "DataStructureDefinition");
    (MH "Measurement", RDFS "label", Literal "Measurement" None (Some "en"));
    (MH "Measurement", RDFS "comment", Literal "Multidimensional measurements for OLAP." None None);
    (MH "CountryHierarchy", RDF "type", SKOS "ConceptScheme");
    (MH "CountryHierarchy", RDFS "label", Literal "Country Hierarchy" None None);
    (MH "Country", SKOS "inScheme", MH "CountryHierarchy");
    (MH "SeverityHierarchy", RDF "type", SKOS "ConceptScheme");
    (MH "Severity", SKOS "inScheme", MH "SeverityHierarchy");
    (MH "hasAge", RDF "type", OWL "DatatypeProperty");
    (MH "hasAge", RDFS "domain", MH "Person");
    (MH "hasAge", RDFS "range", XSD "integer");
    (MH "hasGender", RDF "type", OWL "ObjectProperty");
    (MH "hasGender", RDFS "domain", MH "Person");
    (MH "hasGender", RDFS "range", MH "Gender");
    (MH "hasOccupation", RDF "type", OWL "ObjectProperty");
    (MH "hasOccupation", RDFS "domain", MH "Person");
    (MH "hasOccupation", RDFS "range", MH "Occupation");
    (MH "hasCountry", RDF "type", OWL "ObjectProperty");
    (MH "hasCountry", RDFS "domain", MH "Person");
    (MH "hasCountry", RDFS "range", MH "Country");
    (MH "hasCountry", OWL "equivalentProperty", WD "P17");
    (MH "hasMentalHealth", RDF "type", OWL "ObjectProperty");
    (MH "hasMentalHealth", RDFS "domain", MH "Person");
    (MH "hasMentalHealth", RDFS "range", MH "MentalHealth");
    (MH "hasSeverity", RDF "type", OWL "ObjectProperty");
    (MH "hasSeverity", RDFS "domain", MH "MentalHealth");
    (MH "hasSeverity", RDFS "range", MH "Severity");
    (MH "hasConsultationHistory", RDF "type", OWL "ObjectProperty");
    (MH "hasConsultationHistory", RDFS "domain", MH "MentalHealth");
    (MH "hasConsultationHistory", RDFS "range", MH "Consultation");
    (MH "hasStressLevel", RDF "type", OWL "ObjectProperty");
    (MH "hasStressLevel", RDFS "domain", MH "MentalHealth");
    (MH "hasStressLevel", RDFS "range", MH "StressLevel");
    (MH "hasMedicationUsage", RDF "type", OWL "ObjectProperty");
    (MH "hasMedicationUsage", RDFS "domain", MH "MentalHealth");
    (MH "hasMedicationUsage", RDFS "range", MH "Medication");
    (MH "hasLifestyle", RDF "type", OWL "ObjectProperty");
    (MH "hasLifestyle", RDFS "domain", MH "Person");
    (MH "hasLifestyle", RDFS "range", MH "Lifestyle");
    (MH "hasDietQuality", RDF "type", OWL "ObjectProperty");
    (MH "hasDietQuality", RDFS "domain", MH "Lifestyle");
    (MH "hasDietQuality", RDFS "range", MH "DietQuality");
    (MH "hasSmokingHabit", RDF "type", OWL "ObjectProperty");
    (MH "hasSmokingHabit", RDFS "domain", MH "Lifestyle");
    (MH "hasSmokingHabit", RDFS "range", MH "SmokingHabit");
    (MH "hasAlcoholConsumption", RDF "type", OWL "ObjectProperty");
    (MH "hasAlcoholConsumption", RDFS "domain", MH "Lifestyle");
    (MH "hasAlcoholConsumption", RDFS "range", MH "AlcoholConsumption");
    (MH "hasSleepHours", RDF "type", OWL "DatatypeProperty");
    (MH "hasSleepHours", RDFS "domain", MH "Measurement");
    (MH "hasSleepHours", RDFS "range", XSD "float");
    (MH "hasSleepHours", QB "measure", Literal "Sleep Hours" None None);
    (MH "hasWorkHours", RDF "type", OWL "DatatypeProperty");
    (MH "hasWorkHours", RDFS "domain", MH "Measurement");
    (MH "hasWorkHours", RDFS "range", XSD "integer");
    (MH "hasWorkHours", QB "measure", Literal "Work Hours" None None);
    (MH "hasPhysicalActivityHours", RDF "type", OWL "DatatypeProperty");
    (MH "hasPhysicalActivityHours", RDFS "domain", MH "Measurement");
    (MH "hasPhysicalActivityHours", RDFS "range", XSD "integer");
    (MH "hasPhysicalActivityHours", QB "measure", Literal "Physical Activity Hours" None None);
    (MH "hasSocialMediaUsage", RDF "type", OWL "DatatypeProperty");
    (MH "hasSocialMediaUsage", RDFS "domain", MH "Measurement");
    (MH "hasSocialMediaUsage", RDFS "range", XSD "float");
    (MH "hasSocialMediaUsage", QB "measure", Literal "Social Media Usage" None None);
    (EX "hasMeasurement", RDF "type", OWL "ObjectProperty");
    (EX "hasMeasurement", RDFS "domain", MH "Person");
    (EX "hasMeasurement", RDFS "range", MH "Measurement")
  ].

Definition tbox : graph := foldl (λ g t, add t g) ∅ tbox_triples.

(** ** Exceptions and the error monad *)

(** The exceptions the two scripts can raise on their inputs: [row[col]] on
    a column the DataFrame lacks, [int(text)] on text that is no integer,
    and whatever [Graph.query] raises on a query it cannot execute. *)
Inductive exn : Type :=
  | KeyError (key : string)
  | ValueError
  | QueryError.

Global Instance exn_eq_dec : EqDecision exn.
Proof. solve_decision. Defined.

Definition result (A : Type) : Type := exn + A.

Global Instance result_eq_dec {A} `{EqDecision A} : EqDecision (result A).
Proof. unfold result. apply _. Defined.

Definition ok {A} (a : A) : result A := inr a.
Definition raise {A} (e : exn) : result A := inl e.

Definition result_bind {A B} (m : result A) (f : A → result B) : result B :=
  match m with
  | inl e => inl e
  | inr a => f a
  end.

Declare Scope result_scope.
Delimit Scope result_scope with result.
Notation "x <- m ;; k" := (result_bind m (λ x, k))
  (at level 100, m at next level, right associativity) : result_scope.
Local Open Scope result_scope.

(** ** generate_snowflake_ttl.py, step 5: the ABox *)

(** A row of [df.iterrows()]: column name to the text of the cell, as
    [str()] and the f-strings render it. *)
Abbreviation Row := (gmap string string).

(** [row[col]] *)
Definition getitem (row : Row) (col : string) : result string :=
  match row !! col with
  | Some v => ok v
  | None => raise (KeyError col)
  end.

(** The ten normalised dimensions; each has its dict (lines 176-185). *)
Inductive dim : Type :=
  | Gender | Occupation | Country | Severity | Consultation
  | Stress | Medication | Diet | Smoking | Alcohol.

Global Instance dim_eq_dec : EqDecision dim.
Proof. solve_decision. Defined.

Definition all_dims : list dim :=
  [Gender; Occupation; Country; Severity; Consultation;
   Stress; Medication; Diet; Smoking; Alcohol].

(** The state of the generation loop: the ABox graph, the ten dicts and
    the two counters (lines 171-188). *)
Record GenState : Type := mkGenState {
  abox : graph;
  gender_map : gmap string nat;
  occupation_map : gmap string nat;
  country_map : gmap string nat;
  severity_map : gmap string nat;
  consultation_map : gmap string nat;
  stress_map : gmap string nat;
  medication_map : gmap string nat;
  diet_map : gmap string nat;
  smoking_map : gmap string nat;
  alcohol_map : gmap string nat;
  mental_health_counter : nat;
  lifestyle_counter : nat
}.

Definition init_state : GenState :=
  mkGenState ∅ ∅ ∅ ∅ ∅ ∅ ∅ ∅ ∅ ∅ ∅ 1 1.

(** The dict of a dimension. *)
Definition map_of (d : dim) (st : GenState) : gmap string nat :=
  match d with
  | Gender => gender_map st
  | Occupation => occupation_map st
  | Country => country_map st
  | Severity => severity_map st
  | Consultation => consultation_map st
  | Stress => stress_map st
  | Medication => medication_map st
  | Diet => diet_map st
  | Smoking => smoking_map st
  | Alcohol => alcohol_map st
  end.

(** Assignment to the dict of a dimension. *)
Definition with_map (d : dim) (m : gmap string nat) (st : GenState) : GenState :=
  let (g, m1, m2, m3, m4, m5, m6, m7, m8, m9, m10, c1, c2) := st in
  match d with
  | Gender => mkGenState g m m2 m3 m4 m5 m6 m7 m8 m9 m10 c1 c2
  | Occupation => mkGenState g m1 m m3 m4 m5 m6 m7 m8 m9 m10 c1 c2
  | Country => mkGenState g m1 m2 m m4 m5 m6 m7 m8 m9 m10 c1 c2
  | Severity => mkGenState g m1 m2 m3 m m5 m6 m7 m8 m9 m10 c1 c2
  | Consultation => mkGenState g m1 m2 m3 m4 m m6 m7 m8 m9 m10 c1 c2
  | Stress => mkGenState g m1 m2 m3 m4 m5 m m7 m8 m9 m10 c1 c2
  | Medication => mkGenState g m1 m2 m3 m4 m5 m6 m m8 m9 m10 c1 c2
  | Diet => mkGenState g m1 m2 m3 m4 m5 m6 m7 m m9 m10 c1 c2
  | Smoking => mkGenState g m1 m2 m3 m4 m5 m6 m7 m8 m m10 c1 c2
  | Alcohol => mkGenState g m1 m2 m3 m4 m5 m6 m7 m8 m9 m c1 c2
  end.

(** [abox.add(t)] *)
Definition abox_add (t : triple) (st : GenState) : GenState :=
  let (g, m1, m2, m3, m4, m5, m6, m7, m8, m9, m10, c1, c2) := st in
  mkGenState (add t g) m1 m2 m3 m4 m5 m6 m7 m8 m9 m10 c1 c2.

(** [mental_health_counter += 1] and [lifestyle_counter += 1] *)
Definition incr_mental_health_counter (st : GenState) : GenState :=
  let (g, m1, m2, m3, m4, m5, m6, m7, m8, m9, m10, c1, c2) := st in
  mkGenState g m1 m2 m3 m4 m5 m6 m7 m8 m9 m10 (c1 + 1) c2.

Definition incr_lifestyle_counter (st : GenState) : GenState :=
  let (g, m1, m2, m3, m4, m5, m6, m7, m8, m9, m10, c1, c2) := st in
  mkGenState g m1 m2 m3 m4 m5 m6 m7 m8 m9 m10 c1 (c2 + 1).

(** What distinguishes the ten blocks of the loop body: the column read,
    the path of the entity IRI, its class and the linking property. *)
Definition dim_column (d : dim) : string :=
  match d with
  | Gender => "Gender"
  | Occupation => "Occupation"
  | Country => "Country"
  | Severity => "Severity"
  | Consultation => "Consultation_History"
  | Stress => "Stress_Level"
  | Medication => "Medication_Usage"
  | Diet => "Diet_Quality"
  | Smoking => "Smoking_Habit"
  | Alcohol => "Alcohol_Consumption"
  end.

Definition dim_path (d : dim) : string :=
  match d with
  | Gender => "gender/"
  | Occupation => "occupation/"
  | Country => "country/"
  | Severity => "severity/"
  | Consultation => "consultation/"
  | Stress => "stress/"
  | Medication => "medication/"
  | Diet => "diet/"
  | Smoking => "smoking/"
  | Alcohol => "alcohol/"
  end.

Definition dim_class (d : dim) : term :=
  match d with
  | Gender => MH "Gender"
  | Occupation => MH "Occupation"
  | Country => MH "Country"
  | Severity => MH "Severity"
  | Consultation => MH "Consultation"
  | Stress => MH "StressLevel"
  | Medication => MH "Medication"
  | Diet => MH "DietQuality"
  | Smoking => MH "SmokingHabit"
  | Alcohol => MH "AlcoholConsumption"
  end.

Definition dim_link (d : dim) : term :=
  match d with
  | Gender => MH "hasGender"
  | Occupation => MH "hasOccupation"
  | Country => MH "hasCountry"
  | Severity => MH "hasSeverity"
  | Consultation => MH "hasConsultationHistory"
  | Stress => MH "hasStressLevel"
  | Medication => MH "hasMedicationUsage"
  | Diet => MH "hasDietQuality"
  | Smoking => MH "hasSmokingHabit"
  | Alcohol => MH "hasAlcoholConsumption"
  end.

(** [MH[f'gender/{id}']] and its nine siblings. *)
Definition dim_uri (d : dim) (id : nat) : term := MH (dim_path d +:+ Py.str_of_nat id).

(** The dict literal of line 226; ['Other'] is bound to [None]. *)
Definition country_wd_map : gmap string (option term) :=
  list_to_map
    [("Australia", Some (WD "Q408")); ("USA", Some (WD "Q30"));
     ("India", Some (WD "Q668")); ("UK", Some (WD "Q145"));
     ("Canada", Some (WD "Q16")); ("Germany", Some (WD "Q183"));
     ("Other", None)].

(** Lines 225-228, inside the country block only: the [owl:sameAs] link
    when the value is a key of [country_wd_map] bound to an IRI. *)
Definition add_wikidata_link (d : dim) (value : string) (uri : term)
    (st : GenState) : GenState :=
  match d with
  | Country =>
      match country_wd_map !! value with
      | Some (Some wd) => abox_add (uri, OWL "sameAs", wd) st
      | _ => st
      end
  | _ => st
  end.

(** One normalisation block (lines 197-205 for gender; 207-215, 217-229,
    237-245, 247-255, 257-265, 267-275, 284-292, 294-302, 304-312 for the
    others): on a value that is not yet a key, the next identifier is
    [len(map) + 1], the entity gets its type and label; the link from
    [parent] to the entity of the value is added in every case. *)
Definition normalize (d : dim) (value : string) (parent : term)
    (st : GenState) : GenState :=
  let st :=
    if decide (value ∉ dom (map_of d st)) then
      let id := size (map_of d st) + 1 in
      let st := with_map d (<[value := id]> (map_of d st)) st in
      let uri := dim_uri d id in
      let st := abox_add (uri, RDF "type", dim_class d) st in
      let st := abox_add (uri, SKOS "prefLabel", Literal value None None) st in
      add_wikidata_link d value uri st
    else st in
  abox_add (parent, dim_link d, dim_uri d (map_of d st !!! value)) st.

(** The body of [for index, row in df.iterrows()] (lines 192-323). *)
Definition process_row (row : Row) (st : GenState) : result GenState :=
  (* Person instance *)
  User_ID <- getitem row "User_ID" ;;
  let user_uri := MH ("user/" +:+ User_ID) in
  let st := abox_add (user_uri, RDF "type", MH "Person") st in
  Age <- getitem row "Age" ;;
  let st := abox_add (user_uri, MH "hasAge", Literal Age (Some XSD_integer) None) st in
  gender_value <- getitem row (dim_column Gender) ;;
  let st := normalize Gender gender_value user_uri st in
  occupation_value <- getitem row (dim_column Occupation) ;;
  let st := normalize Occupation occupation_value user_uri st in
  country_value <- getitem row (dim_column Country) ;;
  let st := normalize Country country_value user_uri st in
  (* Mental Health instance *)
  let mh_uri := MH ("mental_health/" +:+ Py.str_of_nat (mental_health_counter st)) in
  let st := abox_add (mh_uri, RDF "type", MH "MentalHealth") st in
  Mental_Health_Condition <- getitem row "Mental_Health_Condition" ;;
  let st := abox_add (mh_uri, RDFS "label", Literal Mental_Health_Condition None None) st in
  let st := abox_add (user_uri, MH "hasMentalHealth", mh_uri) st in
  severity_value <- getitem row (dim_column Severity) ;;
  let st := normalize Severity severity_value mh_uri st in
  consultation_value <- getitem row (dim_column Consultation) ;;
  let st := normalize Consultation consultation_value mh_uri st in
  stress_value <- getitem row (dim_column Stress) ;;
  let st := normalize Stress stress_value mh_uri st in
  medication_value <- getitem row (dim_column Medication) ;;
  let st := normalize Medication medication_value mh_uri st in
  let st := incr_mental_health_counter st in
  (* Lifestyle instance *)
  let ls_uri := MH ("lifestyle/" +:+ Py.str_of_nat (lifestyle_counter st)) in
  let st := abox_add (ls_uri, RDF "type", MH "Lifestyle") st in
  let st := abox_add (user_uri, MH "hasLifestyle", ls_uri) st in
  diet_value <- getitem row (dim_column Diet) ;;
  let st := normalize Diet diet_value ls_uri st in
  smoking_value <- getitem row (dim_column Smoking) ;;
  let st := normalize Smoking smoking_value ls_uri st in
  alcohol_value <- getitem row (dim_column Alcohol) ;;
  let st := normalize Alcohol alcohol_value ls_uri st in
  let st := incr_lifestyle_counter st in
  (* Measurement instance *)
  User_ID' <- getitem row "User_ID" ;;
  let meas_uri := MH ("measurement/" +:+ User_ID') in
  let st := abox_add (meas_uri, RDF "type", MH "Measurement") st in
  Sleep_Hours <- getitem row "Sleep_Hours" ;;
  let st := abox_add (meas_uri, MH "hasSleepHours", Literal Sleep_Hours (Some XSD_float) None) st in
  Work_Hours <- getitem row "Work_Hours" ;;
  let st := abox_add (meas_uri, MH "hasWorkHours", Literal Work_Hours (Some XSD_integer) None) st in
  Physical_Activity_Hours <- getitem row "Physical_Activity_Hours" ;;
  let st := abox_add (meas_uri, MH "hasPhysicalActivityHours",
                      Literal Physical_Activity_Hours (Some XSD_integer) None) st in
  Social_Media_Usage <- getitem row "Social_Media_Usage" ;;
  let st := abox_add (meas_uri, MH "hasSocialMediaUsage",
                      Literal Social_Media_Usage (Some XSD_float) None) st in
  let st := abox_add (user_uri, EX "hasMeasurement", meas_uri) st in
  ok st.

(** The loop over the rows, in order. *)
Fixpoint iterrows (df : list Row) (st : GenState) : result GenState :=
  match df with
  | [] => ok st
  | row :: rest => st' <- process_row row st ;; iterrows rest st'
  end.

(** The files a run leaves behind, by name; a serialised graph is kept as
    the graph it denotes. *)
Abbreviation Files := (gmap string graph).

(** The whole script: [tbox.ttl] is written in step 4, before any row is
    read; [abox.ttl] in step 6, after the loop. An exception in the loop
    ends the run there. *)
Definition generate_snowflake_ttl (df : list Row) : result unit * Files :=
  let files : Files := {[ "tbox.ttl" := tbox ]} in
  match iterrows df init_state with
  | inl e => (raise e, files)
  | inr st => (ok tt, <[ "abox.ttl" := abox st ]> files)
  end.

(** ** QueryBenchmark.py: the query catalog (lines 13-92)

    The query texts are kept as syntax trees of the SPARQL fragment they
    use: a basic graph pattern, a FILTER on [datatype(?x)], GROUP BY with
    one AVG, ORDER BY. *)

Inductive node : Type :=
  | Var (name : string)
  | Const (t : term).

Definition tpattern : Type := node * node * node.

Inductive expr : Type :=
  | DatatypeEq (var : string) (dt : string)
  | And (a b : expr).

Record query : Type := mkQuery {
  select_vars : list string;
  select_avg : option (string * string);  (* (AVG(?x) AS ?y) as (x, y) *)
  where_patterns : list tpattern;
  where_filter : expr;
  group_by : list string;
  order_by : list string
}.

Definition a_ : node := Const (RDF "type").
Definition mh (name : string) : node := Const (MH name).
Definition ex (name : string) : node := Const (EX name).
Definition skos (name : string) : node := Const (SKOS name).
Definition plain (s : string) : node := Const (Literal s None None).

Definition roll_up_sleep_by_country : query := {|
  select_vars := ["country"];
  select_avg := Some ("sleepHours", "avgSleepHours");
  where_patterns :=
    [ (Var "user", a_, mh "Person");
      (Var "user", ex "hasMeasurement", Var "measurement");
      (Var "user", mh "hasCountry", Var "countryUri");
      (Var "measurement", mh "hasSleepHours", Var "sleepHours");
      (Var "countryUri", skos "prefLabel", Var "country") ];
  where_filter := DatatypeEq "sleepHours" XSD_float;
  group_by := ["country"];
  order_by := ["country"]
|}.

Definition drill_down_work_by_country_gender : query := {|
  select_vars := ["country"; "gender"];
  select_avg := Some ("workHours", "avgWorkHours");
  where_patterns :=
    [ (Var "user", a_, mh "Person");
      (Var "user", ex "hasMeasurement", Var "measurement");
      (Var "user", mh "hasCountry", Var "countryUri");
      (Var "user", mh "hasGender", Var "genderUri");
      (Var "measurement", mh "hasWorkHours", Var "workHours");
      (Var "countryUri", skos "prefLabel", Var "country");
      (Var "genderUri", skos "prefLabel", Var "gender") ];
  where_filter := DatatypeEq "workHours" XSD_integer;
  group_by := ["country"; "gender"];
  order_by := ["country"; "gender"]
|}.

Definition slice_high_stress : query := {|
  select_vars := ["user"; "country"; "sleepHours"];
  select_avg := None;
  where_patterns :=
    [ (Var "user", a_, mh "Person");
      (Var "user", mh "hasMentalHealth", Var "mh");
      (Var "user", mh "hasCountry", Var "countryUri");
      (Var "user", ex "hasMeasurement", Var "measurement");
      (Var "mh", mh "hasStressLevel", Var "stressUri");
      (Var "stressUri", skos "prefLabel", plain "High");
      (Var "measurement", mh "hasSleepHours", Var "sleepHours");
      (Var "countryUri", skos "prefLabel", Var "country") ];
  where_filter := DatatypeEq "sleepHours" XSD_float;
  group_by := [];
  order_by := ["country"; "user"]
|}.

Definition dice_medium_severity_australia : query := {|
  select_vars := ["user"; "age"; "workHours"];
  select_avg := None;
  where_patterns :=
    [ (Var "user", a_, mh "Person");
      (Var "user", mh "hasMentalHealth", Var "mh");
      (Var "user", mh "hasCountry", Var "countryUri");
      (Var "user", ex "hasMeasurement", Var "measurement");
      (Var "user", mh "hasAge", Var "age");
      (Var "mh", mh "hasSeverity", Var "severityUri");
      (Var "severityUri", skos "prefLabel", plain "Medium");
      (Var "countryUri", skos "prefLabel", plain "Australia");
      (Var "measurement", mh "hasWorkHours", Var "workHours") ];
  where_filter := And (DatatypeEq "age" XSD_integer) (DatatypeEq "workHours" XSD_integer);
  group_by := [];
  order_by := ["age"; "user"]
|}.

(** [queries.items()], in the order of the dict literal. *)
Definition queries : list (string * query) :=
  [ ("roll_up_sleep_by_country", roll_up_sleep_by_country);
    ("drill_down_work_by_country_gender", drill_down_work_by_country_gender);
    ("slice_high_stress", slice_high_stress);
    ("dice_medium_severity_australia", dice_medium_severity_australia) ].

(** ** The answers of [Graph.query]

    [Graph.query] belongs to rdflib; the benchmark takes it as a parameter.
    An answer is a list of rows; a row holds the values of the selected
    variables, [None] for a variable that is not bound. *)

Module Sparql.

Definition binding : Type := option term.

End Sparql.

(** ** QueryBenchmark.py: the run-time state

    Graph objects live in a store indexed by object identity; [time.time()]
    reads a clock that is outside the program: its successive readings are
    a parameter, the state counts the readings taken; [print] appends to the
    console. *)

Record benchmark : Type := mkBenchmark {
  query_name : string;
  execution_time : Z;
  row_count : nat
}.

Inductive line : Type :=
  | FullHeader
  | FullEntry (b : benchmark)
  | ScalabilityHeader
  | SizeHeader (size : Z)
  | SizeEntry (b : benchmark)
  | FiguresSaved.

Record World : Type := mkWorld {
  graphs : gmap nat graph;
  ticks : nat;
  stdout : list line
}.

Definition Bench (A : Type) : Type := World → result A * World.

Definition bench_ret {A} (a : A) : Bench A := λ w, (ok a, w).

Definition bench_raise {A} (e : exn) : Bench A := λ w, (raise e, w).

Definition bench_bind {A B} (m : Bench A) (f : A → Bench B) : Bench B :=
  λ w, match m w with
       | (inl e, w') => (inl e, w')
       | (inr a, w') => f a w'
       end.

Declare Scope bench_scope.
Delimit Scope bench_scope with bench.
Notation "x <- m ;; k" := (bench_bind m (λ x, k))
  (at level 100, m at next level, right associativity) : bench_scope.
Notation "m ;;; k" := (bench_bind m (λ _, k))
  (at level 100, right associativity) : bench_scope.

(** [for x in xs: body(x)], collecting what the bodies return. *)
Fixpoint bench_for {A B} (xs : list A) (body : A → Bench B) : Bench (list B) :=
  match xs with
  | [] => bench_ret []
  | x :: rest =>
      bench_bind (body x) (λ b,
      bench_bind (bench_for rest body) (λ bs, bench_ret (b :: bs)))
  end.

(** [Graph()]: a new, empty graph object. *)
Definition new_graph : Bench nat := λ w,
  let l := fresh (dom (graphs w)) in
  (ok l, mkWorld (<[ l := ∅ ]> (graphs w)) (ticks w) (stdout w)).

(** [gr.add(t)] on the graph object [l]. *)
Definition graph_add (l : nat) (t : triple) : Bench unit := λ w,
  (ok tt, mkWorld (alter (add t) l (graphs w)) (ticks w) (stdout w)).

(** The triples [for s, p, o in gr] enumerates. *)
Definition graph_iter (l : nat) : Bench (list triple) := λ w,
  (ok (elements (graphs w !!! l)), w).

Definition print (ln : line) : Bench unit := λ w,
  (ok tt, mkWorld (graphs w) (ticks w) (stdout w ++ [ln])%list).

(** ** QueryBenchmark.py: timing, subsampling, the benchmark loops *)

Section Benchmark.

(** The clock readings; [Graph.query]: rdflib's engine, which reads the
    triples of the graph and answers with rows or raises; and Python's
    [int] on text, [None] standing for its [ValueError]. *)
Variable clock : nat → Z.
Variable query_engine : graph → query → result (list (list Sparql.binding)).
Variable int : string → option Z.

Local Open Scope bench_scope.

(** [time.time()] *)
Definition time_time : Bench Z := λ w,
  (ok (clock (ticks w)), mkWorld (graphs w) (S (ticks w)) (stdout w)).

(** [gr.query(q)] on the graph object [l] *)
Definition graph_query (l : nat) (q : query) : Bench (list (list Sparql.binding)) := λ w,
  (query_engine (graphs w !!! l) q, w).

(** Lines 95-105. *)
Definition measure_query_time (gr : nat) (name : string) (q : query) : Bench benchmark :=
  start_time <- time_time ;;
  result <- graph_query gr q ;;
  end_time <- time_time ;;
  let execution_time := (end_time - start_time)%Z in
  let row_count := length result in
  bench_ret (mkBenchmark name execution_time row_count).

(** Line 120: ["user/" in str(s) and int(str(s).split('/')[-1]) <= max_user_id];
    [and] evaluates [int] only when the first test holds, and [int] may
    raise. *)
Definition user_within (s : term) (max_user_id : Z) : result bool :=
  if Py.str_in "user/" (str s) then
    match int (Py.last_item (Py.split "/" (str s))) with
    | Some n => ok (n <=? max_user_id)%Z
    | None => raise ValueError
    end
  else ok false.

(** Lines 123-125. *)
Definition is_dimension (s : term) : bool :=
  Py.str_in "gender/" (str s) || Py.str_in "occupation/" (str s) ||
  Py.str_in "country/" (str s) || Py.str_in "severity/" (str s) ||
  Py.str_in "consultation/" (str s) || Py.str_in "stress/" (str s) ||
  Py.str_in "medication/" (str s) || Py.str_in "diet/" (str s) ||
  Py.str_in "smoking/" (str s) || Py.str_in "alcohol/" (str s).

(** The body of the loop of lines 119-126 for one triple. *)
Definition subsample_step (sub_g : nat) (max_user_id : Z) (t : triple) : Bench unit :=
  let '(s, p, o) := t in
  match user_within s max_user_id with
  | inl e => bench_raise e
  | inr true => graph_add sub_g (s, p, o)
  | inr false =>
      if is_dimension s then graph_add sub_g (s, p, o) else bench_ret tt
  end.

(** Lines 117-127. *)
Definition create_subsampled_graph (gr : nat) (max_user_id : Z) : Bench nat :=
  sub_g <- new_graph ;;
  ts <- graph_iter gr ;;
  _ <- bench_for ts (subsample_step sub_g max_user_id) ;;
  bench_ret sub_g.

(** Line 130. *)
Definition sizes : list Z := [10000; 25000; 50000]%Z.

(** Lines 107-144: the benchmarks on the full graph [g], their report,
    then for each size the subsample and its benchmarks, and the second
    report. The charts of lines 146-179 are drawn from the two returned
    collections. *)
Definition run_benchmarks (g : nat)
    : Bench (list benchmark * list (Z * list benchmark)) :=
  benchmarks_full <- bench_for queries (λ '(name, q), measure_query_time g name q) ;;
  print FullHeader ;;;
  _ <- bench_for benchmarks_full (λ b, print (FullEntry b)) ;;
  scalability_results <-
    bench_for sizes (λ size,
      sub_g <- create_subsampled_graph g size ;;
      benchmarks <- bench_for queries (λ '(name, q), measure_query_time sub_g name q) ;;
      bench_ret (size, benchmarks)) ;;
  print ScalabilityHeader ;;;
  _ <- bench_for scalability_results (λ '(size, bens),
         print (SizeHeader size) ;;;
         _ <- bench_for bens (λ b, print (SizeEntry b)) ;;
         bench_ret tt) ;;
  print FiguresSaved ;;;
  bench_ret (benchmarks_full, scalability_results).

End Benchmark.

(** Lines 8-10: the world in which the script starts its benchmarks, with
    the loaded graph as object [0]. *)
Definition loaded (G : graph) : World := mkWorld {[ 0 := G ]} 0 [].

(** The triples the subsampler keeps when no subject makes [int] raise. *)
Definition kept (int : string → option Z) (max_user_id : Z) (t : triple) : bool :=
  match user_within int (subject t) max_user_id with
  | inr true => true
  | _ => is_dimension (subject t)
  end.

(** ** The vocabulary of the properties *)

(** The seventeen columns the loop body reads. *)
Definition columns : list string :=
  [ "User_ID"; "Age"; "Gender"; "Occupation"; "Country";
    "Mental_Health_Condition"; "Severity"; "Consultation_History";
    "Stress_Level"; "Medication_Usage"; "Diet_Quality"; "Smoking_Habit";
    "Alcohol_Consumption"; "Sleep_Hours"; "Work_Hours";
    "Physical_Activity_Hours"; "Social_Media_Usage" ].

Definition has_columns (row : Row) : bool :=
  forallb (λ c, bool_decide (is_Some (row !! c))) columns.

(** The text of a cell of a row that has the column. *)
Definition cell (row : Row) (col : string) : string :=
  default EmptyString (row !! col).

(** The raw values of one dimension, row after row. *)
Definition column (d : dim) (df : list Row) : list string :=
  (λ row, cell row (dim_column d)) <$> df.

(** The distinct values of a sequence in the order of their first
    occurrence. *)
Definition first_seen (vs : list string) : list string :=
  foldl (λ acc v, if decide (v ∈ acc) then acc else (acc ++ [v])%list) [] vs.

(** The dict that numbers the members of a list from 1. *)
Definition numbering (l : list string) : gmap string nat :=
  list_to_map (imap (λ i v, (v, S i)) l).

(** What a block does to its dict on value [v]. *)
Definition assign (v : string) (m : gmap string nat) : gmap string nat :=
  if decide (v ∈ dom m) then m else <[ v := size m + 1 ]> m.

(** The entities of a row: person and measurement are named after the
    [User_ID], the other two after the counters. *)
Definition user_uri (row : Row) : term := MH ("user/" +:+ cell row "User_ID").
Definition meas_uri (row : Row) : term := MH ("measurement/" +:+ cell row "User_ID").
Definition mh_uri (n : nat) : term := MH ("mental_health/" +:+ Py.str_of_nat n).
Definition ls_uri (n : nat) : term := MH ("lifestyle/" +:+ Py.str_of_nat n).

(** The entity a dimension hangs from: the person, the mental-health
    instance or the lifestyle instance of the row. *)
Definition parent_of (d : dim) (row : Row) (n1 n2 : nat) : term :=
  match d with
  | Gender | Occupation | Country => user_uri row
  | Severity | Consultation | Stress | Medication => mh_uri n1
  | Diet | Smoking | Alcohol => ls_uri n2
  end.

Definition wikidata_triples (d : dim) (v : string) (id : nat) : graph :=
  match d with
  | Country =>
      match country_wd_map !! v with
      | Some (Some wd) => {[ (dim_uri d id, OWL "sameAs", wd) ]}
      | _ => ∅
      end
  | _ => ∅
  end.

(** The triples that describe the entity of a dimension value. *)
Definition entity_triples (d : dim) (v : string) (id : nat) : graph :=
  {[ (dim_uri d id, RDF "type", dim_class d);
     (dim_uri d id, SKOS "prefLabel", Literal v None None) ]}
  ∪ wikidata_triples d v id.

(** What a block adds for the entity: nothing when the value is a key of
    the dict [m] already. *)
Definition new_entity (d : dim) (v : string) (m : gmap string nat) : graph :=
  if decide (v ∈ dom m) then ∅ else entity_triples d v (size m + 1).

(** The triples of one dimension of a row, the identifiers being read in
    [m]: the entity of the value and the link to it. *)
Definition dim_triples (m : dim → gmap string nat) (d : dim) (row : Row)
    (n1 n2 : nat) : graph :=
  let v := cell row (dim_column d) in
  entity_triples d v (m d !!! v)
  ∪ {[ (parent_of d row n1 n2, dim_link d, dim_uri d (m d !!! v)) ]}.

(** The triples of the four per-row entities themselves. *)
Definition fact_triples (row : Row) (n1 n2 : nat) : graph :=
  {[ (user_uri row, RDF "type", MH "Person");
     (user_uri row, MH "hasAge", Literal (cell row "Age") (Some XSD_integer) None);
     (mh_uri n1, RDF "type", MH "MentalHealth");
     (mh_uri n1, RDFS "label", Literal (cell row "Mental_Health_Condition") None None);
     (user_uri row, MH "hasMentalHealth", mh_uri n1);
     (ls_uri n2, RDF "type", MH "Lifestyle");
     (user_uri row, MH "hasLifestyle", ls_uri n2);
     (meas_uri row, RDF "type", MH "Measurement");
     (meas_uri row, MH "hasSleepHours", Literal (cell row "Sleep_Hours") (Some XSD_float) None);
     (meas_uri row, MH "hasWorkHours", Literal (cell row "Work_Hours") (Some XSD_integer) None);
     (meas_uri row, MH "hasPhysicalActivityHours",
        Literal (cell row "Physical_Activity_Hours") (Some XSD_integer) None);
     (meas_uri row, MH "hasSocialMediaUsage",
        Literal (cell row "Social_Media_Usage") (Some XSD_float) None);
     (user_uri row, EX "hasMeasurement", meas_uri row) ]}.

(** All the triples a row stands for. *)
Definition row_triples (m : dim → gmap string nat) (row : Row) (n1 n2 : nat) : graph :=
  fact_triples row n1 n2 ∪ ⋃ (map (λ d, dim_triples m d row n1 n2) all_dims).

(** What one pass of the loop body adds when the dicts were [m] before
    it. *)
Definition row_added (m : dim → gmap string nat) (row : Row) (n1 n2 : nat) : graph :=
  fact_triples row n1 n2
  ∪ ⋃ (map (λ d,
         let v := cell row (dim_column d) in
         new_entity d v (m d)
         ∪ {[ (parent_of d row n1 n2, dim_link d, dim_uri d (assign v (m d) !!! v)) ]})
       all_dims).

(** The identifiers of a whole input, dimension by dimension. *)
Definition ids_of (df : list Row) (d : dim) : gmap string nat :=
  numbering (first_seen (column d df)).

(** The graph a whole input stands for: row [j] (from 0) has the
    mental-health and lifestyle instances numbered [j + 1]. *)
Definition abox_of (df : list Row) : graph :=
  ⋃ (imap (λ j row, row_triples (ids_of df) row (S j) (S j)) df).

(** The state of the loop after the rows [done]: the dicts number the
    columns read so far, the counters are one ahead of the rows, the graph
    is the one the rows stand for. *)
Record Inv (done : list Row) (st : GenState) : Prop := mkInv {
  inv_maps : ∀ d, map_of d st = ids_of done d;
  inv_mhc : mental_health_counter st = S (length done);
  inv_lsc : lifestyle_counter st = S (length done);
  inv_abox : abox st = abox_of done
}.

(** The instances of a class in a graph. *)
Definition instances (class : term) (g : graph) : gset term :=
  set_map subject (filter (λ t, predicate t = RDF "type" ∧ object t = class) g).

(** The subjects linked to [o] by [p]. *)
Definition subjects_with (p o : term) (g : graph) : gset term :=
  set_map subject (filter (λ t, predicate t = p ∧ object t = o) g).

(** Text [pat] occurs in text [s]. *)
Definition occurs (pat s : string) : Prop := ∃ a b, s = a +:+ (pat +:+ b).

(** [b] is what follows the last slash of [s]. *)
Definition after_last_slash (s b : string) : Prop :=
  ¬ occurs "/" b ∧ ∃ a, s = a +:+ ("/" +:+ b).

(** The paths of the ten dimensions (QueryBenchmark.py, lines 123-125). *)
Definition dimension_paths : list string :=
  [ "gender/"; "occupation/"; "country/"; "severity/"; "consultation/";
    "stress/"; "medication/"; "diet/"; "smoking/"; "alcohol/" ].

(** A triple is rooted in a person when [user/] occurs in its subject. *)
Definition person_rooted (t : triple) : Prop :=
  occurs "user/" (str (subject t)).

(** The row identifier of a triple: what [int] reads after the last slash
    of its subject. *)
Definition row_identifier (int : string → option Z) (t : triple) (n : Z) : Prop :=
  ∃ b, after_last_slash (str (subject t)) b ∧ int b = Some n.

(** A triple describes a dimension entity when one of the ten paths occurs
    in its subject. *)
Definition dimension_triple (t : triple) : Prop :=
  ∃ p, p ∈ dimension_paths ∧ occurs p (str (subject t)).

(** Every subject that reads as a person carries an integer. *)
Definition identifiers_readable (int : string → option Z) (G : graph) : Prop :=
  ∀ t, t ∈ G → person_rooted t → ∃ n, row_identifier int t n.

(** A triple pattern matches a triple when its constants are the terms of
    the triple at their places. *)
Definition node_matches (n : node) (t : term) : Prop :=
  match n with
  | Const c => c = t
  | Var _ => True
  end.

Definition pattern_matches (tp : tpattern) (t : triple) : Prop :=
  node_matches tp.1.1 (subject t) ∧ node_matches tp.1.2 (predicate t) ∧
  node_matches tp.2 (object t).

(** A query has no solution in a graph as soon as one of its triple
    patterns matches no triple of the graph. *)
Definition unmatched (tp : tpattern) (g : graph) : Prop :=
  set_Forall (λ t, ¬ pattern_matches tp t) g.

Definition without_solution (q : query) (g : graph) : Prop :=
  Exists (λ tp, unmatched tp g) (where_patterns q).

Global Instance node_matches_dec n t : Decision (node_matches n t).
Proof. destruct n; cbn; apply _. Defined.

Global Instance pattern_matches_dec tp t : Decision (pattern_matches tp t).
Proof. apply _. Defined.

Global Instance unmatched_dec tp g : Decision (unmatched tp g).
Proof. apply _. Defined.

Global Instance without_solution_dec q g : Decision (without_solution q g).
Proof. apply _. Defined.

(** rdflib's answer to a query without solution: no row, but one row of
    unbound values when the query aggregates (its evaluation of an
    aggregate yields one empty binding when there is no group). *)
Definition no_solution_answer (q : query) : list (list Sparql.binding) :=
  match select_avg q with
  | Some _ => [ replicate (S (length (select_vars q))) None ]
  | None => []
  end.

(** What the properties below ask of the engine. *)
Definition answers_without_solution
    (engine : graph → query → result (list (list Sparql.binding))) : Prop :=
  ∀ g q, without_solution q g → engine g q = ok (no_solution_answer q).

(** ** Sample inputs *)

(** A row with the seventeen columns, in the order of [columns]. *)
Definition make_row (User_ID Age Gender Occupation Country Mental_Health_Condition
    Severity Consultation_History Stress_Level Medication_Usage Diet_Quality
    Smoking_Habit Alcohol_Consumption Sleep_Hours Work_Hours
    Physical_Activity_Hours Social_Media_Usage : string) : Row :=
  list_to_map
    [ ("User_ID", User_ID); ("Age", Age); ("Gender", Gender);
      ("Occupation", Occupation); ("Country", Country);
      ("Mental_Health_Condition", Mental_Health_Condition);
      ("Severity", Severity); ("Consultation_History", Consultation_History);
      ("Stress_Level", Stress_Level); ("Medication_Usage", Medication_Usage);
      ("Diet_Quality", Diet_Quality); ("Smoking_Habit", Smoking_Habit);
      ("Alcohol_Consumption", Alcohol_Consumption);
      ("Sleep_Hours", Sleep_Hours); ("Work_Hours", Work_Hours);
      ("Physical_Activity_Hours", Physical_Activity_Hours);
      ("Social_Media_Usage", Social_Media_Usage) ].

(** Three rows with countries USA, India, USA. *)
Definition usa_india_usa : list Row :=
  [ make_row "1" "36" "Male" "Education" "USA" "Yes" "None" "Yes" "Low" "Yes"
      "Healthy" "Regular Smoker" "Regular Drinker" "7.1" "46" "8" "2.2";
    make_row "2" "48" "Male" "Engineering" "India" "No" "Low" "No" "Low" "No"
      "Healthy" "Regular Smoker" "Social Drinker" "6.8" "47" "8" "5.3";
    make_row "3" "18" "Female" "Sales" "USA" "No" "None" "Yes" "High" "No"
      "Average" "Non-Smoker" "Non-Drinker" "6.0" "40" "5" "2.9" ].

(** Three rows with (country, sleep hours) = (Australia, 7.0),
    (Australia, 8.0), (USA, 6.0). *)
Definition sleep_by_country_rows : list Row :=
  [ make_row "1" "36" "Male" "Education" "Australia" "Yes" "None" "Yes" "Low" "Yes"
      "Healthy" "Regular Smoker" "Regular Drinker" "7.0" "46" "8" "2.2";
    make_row "2" "48" "Male" "Engineering" "Australia" "No" "Low" "No" "Low" "No"
      "Healthy" "Regular Smoker" "Social Drinker" "8.0" "47" "8" "5.3";
    make_row "3" "18" "Female" "Sales" "USA" "No" "None" "Yes" "High" "No"
      "Average" "Non-Smoker" "Non-Drinker" "6.0" "40" "5" "2.9" ].

(** One row whose age is no number and whose sleep hours are missing (the
    cell pandas renders as [nan]). *)
Definition malformed_rows : list Row :=
  [ make_row "1" "abc" "Male" "Education" "USA" "Yes" "None" "Yes" "Low" "Yes"
      "Healthy" "Regular Smoker" "Regular Drinker" "nan" "46" "8" "2.2" ].

(** Value of a run of decimal digits. *)
Fixpoint digits (acc : Z) (s : string) : option Z :=
  match s with
  | EmptyString => Some acc
  | String c s' =>
      match Py.digit_of c with
      | Some d => digits (10 * acc + d)%Z s'
      | None => None
      end
  end.

(** The number a decimal lexical form denotes: sign, digits, optional
    fraction. Exponents and the special values are not read. *)
Definition decimal_value (lex : string) : option Q :=
  let (neg, body) :=
    match lex with
    | String "-" r => (true, r)
    | String "+" r => (false, r)
    | r => (false, r)
    end in
  let parts := Py.split "." body in
  match parts with
  | [ip] =>
      if bool_decide (ip = EmptyString) then None
      else match digits 0 ip with
           | Some n => Some (inject_Z (if neg then - n else n))
           | None => None
           end
  | [ip; fp] =>
      if bool_decide (ip = EmptyString) && bool_decide (fp = EmptyString) then None
      else match digits 0 ip, digits 0 fp with
           | Some n, Some f =>
               let scale := (10 ^ Z.of_nat (String.length fp))%Z in
               let v := (n * scale + f)%Z in
               Some (Qred (Qmake (if neg then - v else v) (Z.to_pos scale)))
           | _, _ => None
           end
  | _ => None
  end.

(** A numeric field is well formed when its text denotes a number. *)
Definition numeric_text (s : string) : bool :=
  bool_decide (is_Some (decimal_value s)).

(** A graph with a subject that reads as a person but carries no integer. *)
Definition unreadable_graph : graph :=
  {[ (MH "user/abc", RDF "type", MH "Person") ]}.

(** Two persons, a measurement and a dimension entity. *)
Definition people_and_gender : graph :=
  {[ (MH "user/1", RDF "type", MH "Person");
     (MH "user/1", MH "hasGender", MH "gender/1");
     (MH "user/20000", RDF "type", MH "Person");
     (MH "measurement/1", RDF "type", MH "Measurement");
     (MH "gender/1", RDF "type", MH "Gender") ]}.

(** An engine that answers the queries without solution as rdflib does, and
    cannot execute the others. *)
Definition engine_without_solution (g : graph) (q : query)
    : result (list (list Sparql.binding)) :=
  if decide (without_solution q g) then ok (no_solution_answer q)
  else raise QueryError.

(** An engine that cannot execute the queries without an aggregate (the
    slice and the dice) and answers the others with no row. *)
Definition failing_engine (G : graph) (q : query) : result (list (list Sparql.binding)) :=
  match select_avg q with
  | None => raise QueryError
  | Some _ => ok []
  end.

(** The worlds [w'] that differ from [w] at most in the graph object [l]. *)
Definition same_except (l : nat) (w w' : World) : Prop :=
  (∀ l', l' ≠ l → graphs w' !! l' = graphs w !! l') ∧
  ticks w' = ticks w ∧ stdout w' = stdout w.

(** * Properties *)

(** ** Python strings *)

Section PyStrings.

Import Py.

Lemma app_nil (s : string) : EmptyString +:+ s = s.
Proof. reflexivity. Qed.

Lemma app_cons (a : ascii) (s t : string) : String a s +:+ t = String a (s +:+ t).
Proof. reflexivity. Qed.

Lemma has_char_app c (a b : string) :
  has_char c (a +:+ b) = has_char c a || has_char c b.
Proof.
  induction a as [|x a IH]; [done|].
  rewrite app_cons. cbn. rewrite IH. by rewrite Bool.orb_assoc.
Qed.

Lemma ends_with_has_char c pat : ends_with c pat = true → has_char c pat = true.
Proof.
  induction pat as [|a pat IH]; cbn; [done|].
  destruct pat as [|b pat].
  - intros ->. done.
  - intros H. rewrite (IH H). apply orb_true_r.
Qed.

Lemma startswith_absent c pat s :
  has_char c pat = true → has_char c s = false → startswith pat s = false.
Proof.
  revert s. induction pat as [|a pat IH]; intros s; cbn; [done|].
  destruct s as [|b s]; [done|]. cbn.
  intros Hp Hs. apply orb_false_iff in Hs as [Hb Hs].
  apply orb_true_iff in Hp as [Ha|Hp].
  - apply bool_decide_eq_true in Ha. subst a.
    apply bool_decide_eq_false in Hb.
    rewrite bool_decide_eq_false_2; [done|]. congruence.
  - rewrite (IH s Hp Hs). apply andb_false_r.
Qed.

Lemma str_in_absent c pat s :
  has_char c pat = true → has_char c s = false → str_in pat s = false.
Proof.
  intros Hp. induction s as [|b s IH]; intros Hs.
  - cbn. destruct pat; [done|]. done.
  - cbn [str_in]. rewrite (startswith_absent c) by done.
    cbn in Hs. apply orb_false_iff in Hs as [_ Hs]. by rewrite IH.
Qed.

Lemma startswith_app_tail c pat x tail :
  ends_with c pat = true → has_char c tail = false →
  startswith pat (x +:+ tail) = startswith pat x.
Proof.
  revert x. induction pat as [|a pat IH]; intros x He Ht; [done|].
  destruct x as [|b x].
  - rewrite app_nil. rewrite (startswith_absent c); [done| |done].
    by apply ends_with_has_char.
  - rewrite app_cons. cbn [startswith]. destruct pat as [|a' pat].
    + done.
    + rewrite IH; done.
Qed.

(** A pattern that ends in [c] occurs in [pre ++ tail], where [tail] has
    no [c], exactly when it occurs in [pre]. *)
Lemma str_in_app_tail c pat pre tail :
  ends_with c pat = true → has_char c tail = false →
  str_in pat (pre +:+ tail) = str_in pat pre.
Proof.
  intros He Ht. induction pre as [|a pre IH].
  - rewrite app_nil. rewrite (str_in_absent c); [|by apply ends_with_has_char|done].
    destruct pat; done.
  - rewrite app_cons. cbn [str_in]. rewrite IH.
    rewrite <- app_cons. by rewrite (startswith_app_tail c).
Qed.

Lemma split_nonempty sep s : split sep s ≠ [].
Proof.
  destruct s as [|c s]; cbn; [done|].
  case_bool_decide; [done|]. destruct (split sep s); done.
Qed.

Lemma split_absent sep s : has_char sep s = false → split sep s = [s].
Proof.
  induction s as [|c s IH]; cbn; [done|].
  intros H. apply orb_false_iff in H as [Hc Hs].
  rewrite Hc. by rewrite IH.
Qed.

Lemma split_app sep p t :
  split sep (p +:+ String sep t) = (split sep p ++ split sep t)%list.
Proof.
  induction p as [|c p IH]; [rewrite app_nil|rewrite app_cons]; cbn [split].
  - rewrite bool_decide_eq_true_2; done.
  - case_bool_decide; rewrite IH; [done|].
    pose proof (split_nonempty sep p). destruct (split sep p); done.
Qed.

(** [(p + sep + t).split(sep)[-1]] is [t] when [t] has no [sep]. *)
Lemma last_item_split sep p t :
  has_char sep t = false → last_item (split sep (p +:+ String sep t)) = t.
Proof.
  intros H. rewrite split_app, (split_absent sep t H).
  unfold last_item. by rewrite last_snoc.
Qed.

Lemma append_assoc' (a b c : string) : (a +:+ b) +:+ c = a +:+ (b +:+ c).
Proof.
  induction a as [|x a IH]; [by rewrite !app_nil|].
  by rewrite !app_cons, IH.
Qed.

(** [startswith] and [in] against their meaning on texts. *)
Lemma startswith_iff pat s : startswith pat s = true ↔ ∃ b, s = pat +:+ b.
Proof.
  revert s. induction pat as [|a pat IH]; intros s.
  - split; [|done]. intros _. exists s. by rewrite app_nil.
  - destruct s as [|c s]; cbn [startswith].
    + split; [done|]. intros [b Hb]. rewrite app_cons in Hb. discriminate Hb.
    + rewrite andb_true_iff, bool_decide_eq_true, IH. split.
      * intros [-> [b ->]]. exists b. by rewrite app_cons.
      * intros [b Hb]. rewrite app_cons in Hb. injection Hb as -> ->. eauto.
Qed.

Lemma str_in_occurs pat s : str_in pat s = true ↔ occurs pat s.
Proof.
  unfold occurs. induction s as [|c s IH]; cbn [str_in].
  - rewrite orb_false_r, startswith_iff. split.
    + intros [b Hb]. exists EmptyString, b. by rewrite app_nil.
    + intros (a & b & H). destruct a as [|x a].
      * rewrite app_nil in H. eauto.
      * rewrite app_cons in H. discriminate H.
  - rewrite orb_true_iff, startswith_iff, IH. split.
    + intros [[b Hb]|(a & b & ->)].
      * exists EmptyString, b. by rewrite app_nil.
      * exists (String c a), b. by rewrite app_cons.
    + intros (a & b & H). destruct a as [|x a].
      * left. rewrite app_nil in H. eauto.
      * right. rewrite app_cons in H. injection H as -> ->. eauto.
Qed.

Lemma has_char_occurs c s : has_char c s = true ↔ occurs (String c EmptyString) s.
Proof.
  rewrite <- str_in_occurs. induction s as [|a s IH]; cbn; [done|].
  rewrite !orb_true_iff, IH, andb_true_r, !bool_decide_eq_true. naive_solver.
Qed.

Lemma has_char_not_occurs c s : has_char c s = false ↔ ¬ occurs (String c EmptyString) s.
Proof.
  rewrite <- has_char_occurs. destruct (has_char c s); naive_solver.
Qed.

(** A text with a [c] splits at its last [c]. *)
Lemma last_char_decompose c s :
  has_char c s = true → ∃ a t, s = a +:+ String c t ∧ has_char c t = false.
Proof.
  induction s as [|x s IH]; cbn; [done|].
  destruct (has_char c s) eqn:Hs.
  - intros _. destruct (IH eq_refl) as (a & t & -> & Ht).
    exists (String x a), t. by rewrite app_cons.
  - rewrite orb_false_r. intros ->%bool_decide_eq_true.
    exists EmptyString, s. by rewrite app_nil.
Qed.

(** [s.split('/')[-1]] is what follows the last slash of [s]. *)
Lemma after_last_slash_iff s b :
  occurs "/" s → after_last_slash s b ↔ b = last_item (split "/" s).
Proof.
  intros Hs. unfold after_last_slash. split.
  - intros [Hb [a ->]]. apply has_char_not_occurs in Hb.
    change ("/" +:+ b) with (String "/" b). by rewrite last_item_split.
  - intros ->. apply has_char_occurs in Hs.
    destruct (last_char_decompose "/" s Hs) as (a & t & -> & Ht).
    rewrite last_item_split by done. split.
    + by apply has_char_not_occurs.
    + by exists a.
Qed.

Lemma string_of_uint_slash (d : Decimal.uint) :
  has_char "/" (NilEmpty.string_of_uint d) = false.
Proof. induction d; cbn; done. Qed.

Lemma str_of_nat_slash n : has_char "/" (str_of_nat n) = false.
Proof. apply string_of_uint_slash. Qed.

Lemma str_of_nat_inj n m : str_of_nat n = str_of_nat m → n = m.
Proof.
  unfold str_of_nat. intros H.
  assert (Nat.to_uint n = Nat.to_uint m) as Hu.
  { apply (f_equal NilEmpty.uint_of_string) in H.
    rewrite !NilEmpty.usu in H. congruence. }
  apply (f_equal Nat.of_uint) in Hu. by rewrite !DecimalNat.Unsigned.of_to in Hu.
Qed.

End PyStrings.

(** ** Graphs and the state of the generator *)

Lemma elem_of_add (t x : triple) (g : graph) : x ∈ add t g ↔ x = t ∨ x ∈ g.
Proof.
  destruct g as [m]. unfold add, elem_of, gset_elem_of, mapset_elem_of. cbn.
  destruct (decide (x = t)) as [->|Hne].
  - rewrite lookup_insert_eq. split; auto.
  - rewrite lookup_insert_ne by done. split; [auto|]. by intros [?|?].
Qed.

Lemma add_union (t : triple) (g : graph) : add t g = {[ t ]} ∪ g.
Proof. apply set_eq. intros x. rewrite elem_of_add. set_solver. Qed.

Lemma abox_abox_add t st : abox (abox_add t st) = {[ t ]} ∪ abox st.
Proof. destruct st. cbn. apply add_union. Qed.

Lemma map_of_abox_add d t st : map_of d (abox_add t st) = map_of d st.
Proof. by destruct st, d. Qed.

Lemma mhc_abox_add t st :
  mental_health_counter (abox_add t st) = mental_health_counter st.
Proof. by destruct st. Qed.

Lemma lsc_abox_add t st : lifestyle_counter (abox_add t st) = lifestyle_counter st.
Proof. by destruct st. Qed.

Lemma abox_with_map d m st : abox (with_map d m st) = abox st.
Proof. by destruct st, d. Qed.

Lemma map_of_with_map d d' m st :
  map_of d' (with_map d m st) = if decide (d = d') then m else map_of d' st.
Proof. by destruct st, d, d'. Qed.

Lemma mhc_with_map d m st :
  mental_health_counter (with_map d m st) = mental_health_counter st.
Proof. by destruct st, d. Qed.

Lemma lsc_with_map d m st : lifestyle_counter (with_map d m st) = lifestyle_counter st.
Proof. by destruct st, d. Qed.

Lemma abox_incr_mh st : abox (incr_mental_health_counter st) = abox st.
Proof. by destruct st. Qed.

Lemma map_of_incr_mh d st : map_of d (incr_mental_health_counter st) = map_of d st.
Proof. by destruct st, d. Qed.

Lemma mhc_incr_mh st :
  mental_health_counter (incr_mental_health_counter st) = mental_health_counter st + 1.
Proof. by destruct st. Qed.

Lemma lsc_incr_mh st :
  lifestyle_counter (incr_mental_health_counter st) = lifestyle_counter st.
Proof. by destruct st. Qed.

Lemma abox_incr_ls st : abox (incr_lifestyle_counter st) = abox st.
Proof. by destruct st. Qed.

Lemma map_of_incr_ls d st : map_of d (incr_lifestyle_counter st) = map_of d st.
Proof. by destruct st, d. Qed.

Lemma mhc_incr_ls st :
  mental_health_counter (incr_lifestyle_counter st) = mental_health_counter st.
Proof. by destruct st. Qed.

Lemma lsc_incr_ls st :
  lifestyle_counter (incr_lifestyle_counter st) = lifestyle_counter st + 1.
Proof. by destruct st. Qed.

Lemma abox_add_wikidata_link d v id st :
  abox (add_wikidata_link d v (dim_uri d id) st) = wikidata_triples d v id ∪ abox st.
Proof.
  unfold add_wikidata_link, wikidata_triples.
  destruct d; try (by rewrite (left_id_L ∅ (∪))).
  destruct (country_wd_map !! v) as [[wd|]|];
    rewrite ?abox_abox_add; by rewrite ?(left_id_L ∅ (∪)).
Qed.

Lemma map_of_add_wikidata_link d' d v uri st :
  map_of d' (add_wikidata_link d v uri st) = map_of d' st.
Proof.
  unfold add_wikidata_link. destruct d; try done.
  destruct (country_wd_map !! v) as [[wd|]|]; by rewrite ?map_of_abox_add.
Qed.

Lemma mhc_add_wikidata_link d v uri st :
  mental_health_counter (add_wikidata_link d v uri st) = mental_health_counter st.
Proof.
  unfold add_wikidata_link. destruct d; try done.
  destruct (country_wd_map !! v) as [[wd|]|]; by rewrite ?mhc_abox_add.
Qed.

Lemma lsc_add_wikidata_link d v uri st :
  lifestyle_counter (add_wikidata_link d v uri st) = lifestyle_counter st.
Proof.
  unfold add_wikidata_link. destruct d; try done.
  destruct (country_wd_map !! v) as [[wd|]|]; by rewrite ?lsc_abox_add.
Qed.

(** *** One normalisation block *)

Lemma map_of_normalize d v p st :
  map_of d (normalize d v p st) = assign v (map_of d st).
Proof.
  unfold normalize, assign. rewrite map_of_abox_add.
  destruct (decide (v ∉ dom (map_of d st))) as [Hn|Hn].
  - rewrite map_of_add_wikidata_link, !map_of_abox_add, map_of_with_map.
    rewrite decide_True by done. by rewrite decide_False.
  - rewrite decide_True; [done|]. by apply dec_stable.
Qed.

Lemma map_of_normalize_ne d d' v p st :
  d ≠ d' → map_of d' (normalize d v p st) = map_of d' st.
Proof.
  intros Hd. unfold normalize. rewrite map_of_abox_add.
  destruct (decide (v ∉ dom (map_of d st))); [|done].
  rewrite map_of_add_wikidata_link, !map_of_abox_add, map_of_with_map.
  by rewrite decide_False.
Qed.

Lemma mhc_normalize d v p st :
  mental_health_counter (normalize d v p st) = mental_health_counter st.
Proof.
  unfold normalize. rewrite mhc_abox_add.
  destruct (decide (v ∉ dom (map_of d st))); [|done].
  by rewrite mhc_add_wikidata_link, !mhc_abox_add, mhc_with_map.
Qed.

Lemma lsc_normalize d v p st :
  lifestyle_counter (normalize d v p st) = lifestyle_counter st.
Proof.
  unfold normalize. rewrite lsc_abox_add.
  destruct (decide (v ∉ dom (map_of d st))); [|done].
  by rewrite lsc_add_wikidata_link, !lsc_abox_add, lsc_with_map.
Qed.

Lemma abox_normalize d v p st :
  abox (normalize d v p st) =
  {[ (p, dim_link d, dim_uri d (assign v (map_of d st) !!! v)) ]}
  ∪ (new_entity d v (map_of d st) ∪ abox st).
Proof.
  unfold normalize, assign, new_entity, entity_triples.
  rewrite abox_abox_add.
  destruct (decide (v ∉ dom (map_of d st))) as [Hn|Hn];
    destruct (decide (v ∈ dom (map_of d st))) as [Hv|Hv]; try done.
  - rewrite map_of_add_wikidata_link, !map_of_abox_add, map_of_with_map.
    rewrite decide_True by done.
    rewrite abox_add_wikidata_link, !abox_abox_add, abox_with_map.
    f_equal. set_solver.
  - by rewrite (left_id_L ∅ (∪)).
Qed.

(** ** First-occurrence numbering *)

Lemma first_seen_snoc vs v :
  first_seen (vs ++ [v]) =
  if decide (v ∈ first_seen vs) then first_seen vs else (first_seen vs ++ [v])%list.
Proof. unfold first_seen. by rewrite foldl_snoc. Qed.

Lemma first_seen_NoDup vs : NoDup (first_seen vs).
Proof.
  induction vs as [|v vs IH] using rev_ind; [constructor|].
  rewrite first_seen_snoc. case_decide; [done|].
  apply NoDup_app. split_and!; [done| |apply NoDup_singleton].
  intros x Hx ->%list_elem_of_singleton. done.
Qed.

Lemma elem_of_first_seen vs v : v ∈ first_seen vs ↔ v ∈ vs.
Proof.
  induction vs as [|x vs IH] using rev_ind; [done|].
  rewrite first_seen_snoc. case_decide as Hx.
  - rewrite elem_of_app, list_elem_of_singleton, <- IH. naive_solver.
  - rewrite !elem_of_app, IH. done.
Qed.

Lemma numbering_fst (l : list string) : (imap (λ i v, (v, S i)) l).*1 = l.
Proof.
  rewrite fmap_imap. cbn. induction l as [|x l IH] using rev_ind; [done|].
  rewrite imap_app. cbn. by rewrite IH.
Qed.

Lemma numbering_lookup (l : list string) v i :
  NoDup l → numbering l !! v = Some i ↔ ∃ k, i = S k ∧ l !! k = Some v.
Proof.
  intros Hl. unfold numbering.
  rewrite <- elem_of_list_to_map by (by rewrite numbering_fst).
  rewrite elem_of_lookup_imap. split.
  - intros (k & y & [= -> ->] & Hk). eauto.
  - intros (k & -> & Hk). eauto.
Qed.

Lemma numbering_dom (l : list string) : dom (numbering l) = list_to_set l.
Proof.
  unfold numbering. rewrite dom_list_to_map_L. by rewrite numbering_fst.
Qed.

Lemma numbering_size (l : list string) : NoDup l → size (numbering l) = length l.
Proof.
  intros Hl. rewrite <- size_dom, numbering_dom. by rewrite size_list_to_set.
Qed.

Lemma numbering_snoc (l : list string) v :
  v ∉ l → numbering (l ++ [v]) = <[ v := S (length l) ]> (numbering l).
Proof.
  intros Hv. unfold numbering. rewrite imap_app. cbn.
  rewrite list_to_map_app. cbn. rewrite Nat.add_0_r.
  rewrite insert_empty. rewrite <- insert_union_singleton_r; [done|].
  apply not_elem_of_dom. rewrite dom_list_to_map_L, numbering_fst.
  by rewrite elem_of_list_to_set.
Qed.

(** The block's update of the dict is the numbering of the column read so
    far, one value further. *)
Lemma assign_numbering vs v :
  assign v (numbering (first_seen vs)) = numbering (first_seen (vs ++ [v])).
Proof.
  unfold assign. rewrite first_seen_snoc, numbering_dom.
  destruct (decide (v ∈ first_seen vs)) as [Hv|Hv].
  - rewrite decide_True; [done|]. by apply elem_of_list_to_set.
  - rewrite decide_False by (by rewrite elem_of_list_to_set).
    rewrite numbering_snoc by done.
    rewrite numbering_size by apply first_seen_NoDup. f_equal. lia.
Qed.

Lemma assign_lookup_old v u m :
  u ∈ dom m → assign v m !!! u = m !!! u.
Proof.
  intros Hu. unfold assign. case_decide as Hv; [done|].
  rewrite lookup_total_insert_ne; [done|]. intros ->. done.
Qed.

(** ** The loop body *)

Lemma getitem_cell row col : is_Some (row !! col) → getitem row col = ok (cell row col).
Proof. intros [v Hv]. unfold getitem, cell. by rewrite Hv. Qed.

Lemma has_columns_spec row :
  has_columns row = true ↔ Forall (λ c, is_Some (row !! c)) columns.
Proof.
  unfold has_columns. rewrite forallb_forall, Forall_forall.
  split; intros H c Hc.
  - apply list_elem_of_In, H in Hc. by apply bool_decide_eq_true in Hc.
  - apply bool_decide_eq_true, H. by apply list_elem_of_In.
Qed.

Create Rewrite HintDb gen.
#[local] Hint Rewrite abox_abox_add map_of_abox_add mhc_abox_add lsc_abox_add
  abox_incr_mh map_of_incr_mh mhc_incr_mh lsc_incr_mh
  abox_incr_ls map_of_incr_ls mhc_incr_ls lsc_incr_ls
  map_of_normalize mhc_normalize lsc_normalize abox_normalize : gen.
#[local] Hint Rewrite map_of_normalize_ne using discriminate : gen.

Lemma process_row_spec row st :
  has_columns row = true →
  ∃ st', process_row row st = ok st' ∧
    (∀ d, map_of d st' = assign (cell row (dim_column d)) (map_of d st)) ∧
    mental_health_counter st' = mental_health_counter st + 1 ∧
    lifestyle_counter st' = lifestyle_counter st + 1 ∧
    abox st' =
      row_added (λ d, map_of d st) row (mental_health_counter st) (lifestyle_counter st)
      ∪ abox st.
Proof.
  intros Hc. apply has_columns_spec in Hc. unfold columns in Hc.
  repeat (apply Forall_cons in Hc as [? Hc]).
  unfold process_row.
  repeat (rewrite getitem_cell by assumption; cbn [result_bind ok]).
  eexists. split; [reflexivity|].
  split_and!.
  - intros d. destruct d; autorewrite with gen; reflexivity.
  - autorewrite with gen. reflexivity.
  - autorewrite with gen. reflexivity.
  - autorewrite with gen.
    unfold row_added, fact_triples, all_dims, user_uri, meas_uri, mh_uri, ls_uri.
    cbn [map union_list foldr parent_of dim_column].
    change (cell row "Gender") with (cell row (dim_column Gender)).
    apply set_eq. intros t. set_unfold. tauto.
Qed.

(** ** The loop: the state after the rows [done] *)

Lemma column_snoc d done row :
  column d (done ++ [row]) = (column d done ++ [cell row (dim_column d)])%list.
Proof. unfold column. by rewrite fmap_app. Qed.

Lemma ids_of_snoc done row d :
  ids_of (done ++ [row]) d = assign (cell row (dim_column d)) (ids_of done d).
Proof. unfold ids_of. by rewrite column_snoc, assign_numbering. Qed.

Lemma ids_of_dom df d v : v ∈ dom (ids_of df d) ↔ v ∈ column d df.
Proof.
  unfold ids_of. by rewrite numbering_dom, elem_of_list_to_set, elem_of_first_seen.
Qed.

Lemma ids_of_lookup df d v i :
  ids_of df d !! v = Some i ↔ ∃ k, i = S k ∧ first_seen (column d df) !! k = Some v.
Proof. apply numbering_lookup, first_seen_NoDup. Qed.

Lemma elem_of_column d df v :
  v ∈ column d df ↔ ∃ j row, df !! j = Some row ∧ cell row (dim_column d) = v.
Proof.
  unfold column. rewrite list_elem_of_fmap. split.
  - intros (row & -> & [j Hj]%list_elem_of_lookup). eauto.
  - intros (j & row & Hj & <-). exists row. split; [done|].
    by eapply list_elem_of_lookup_2.
Qed.

Lemma row_triples_ext (m m' : dim → gmap string nat) row n1 n2 :
  (∀ d, m d !!! cell row (dim_column d) = m' d !!! cell row (dim_column d)) →
  row_triples m row n1 n2 = row_triples m' row n1 n2.
Proof.
  intros H. unfold row_triples. f_equal. f_equal.
  apply map_ext. intros d. unfold dim_triples. cbn. by rewrite H.
Qed.

Lemma abox_of_snoc done row :
  abox_of (done ++ [row]) =
  abox_of done ∪ row_triples (ids_of (done ++ [row])) row (S (length done)) (S (length done)).
Proof.
  unfold abox_of. rewrite imap_app, union_list_app_L. cbn.
  rewrite Nat.add_0_r, (right_id_L ∅ (∪)). f_equal. f_equal.
  apply imap_ext. intros j r Hj. cbn. apply row_triples_ext. intros d.
  rewrite ids_of_snoc. apply assign_lookup_old.
  apply ids_of_dom, elem_of_column. eauto.
Qed.

Lemma elem_of_abox_of df t :
  t ∈ abox_of df ↔
  ∃ j row, df !! j = Some row ∧ t ∈ row_triples (ids_of df) row (S j) (S j).
Proof.
  unfold abox_of. rewrite elem_of_union_list. split.
  - intros (X & (j & row & -> & Hj)%elem_of_lookup_imap & Ht). eauto.
  - intros (j & row & Hj & Ht). eexists. split; [|exact Ht].
    apply elem_of_lookup_imap. eauto.
Qed.

Lemma dim_triples_row_triples m d row n1 n2 :
  dim_triples m d row n1 n2 ⊆ row_triples m row n1 n2.
Proof.
  unfold row_triples. intros t Ht. apply elem_of_union. right.
  apply elem_of_union_list. eexists. split; [|exact Ht].
  apply list_elem_of_In.
  apply (in_map (λ d, dim_triples m d row n1 n2) all_dims d).
  destruct d; cbn; tauto.
Qed.

(** The entity of every value that has an identifier is described in the
    graph. *)
Lemma entity_in_abox_of df d v i :
  ids_of df d !! v = Some i → entity_triples d v i ⊆ abox_of df.
Proof.
  intros Hi. assert (v ∈ column d df) as Hv.
  { apply ids_of_dom, elem_of_dom. eauto. }
  apply elem_of_column in Hv as (j & row & Hj & Hc).
  intros t Ht. apply elem_of_abox_of. exists j, row. split; [done|].
  apply (dim_triples_row_triples _ d). unfold dim_triples. cbn.
  rewrite Hc. apply elem_of_union. left.
  by rewrite (lookup_total_correct _ _ _ Hi).
Qed.

Lemma new_entity_absorbed (d : dim) (v : string) (m : gmap string nat) (A : graph) :
  (∀ i, m !! v = Some i → entity_triples d v i ⊆ A) →
  new_entity d v m ∪ A = entity_triples d v (assign v m !!! v) ∪ A.
Proof.
  intros HA. unfold new_entity, assign.
  destruct (decide (v ∈ dom m)) as [Hv|Hv].
  - apply elem_of_dom in Hv as [i Hi].
    rewrite (lookup_total_correct _ _ _ Hi).
    specialize (HA i Hi). set_solver.
  - by rewrite lookup_total_insert_eq.
Qed.

Lemma union_list_absorbed {X} (N E L : X → graph) (A : graph) (l : list X) :
  (∀ x, N x ∪ A = E x ∪ A) →
  ⋃ (map (λ x, N x ∪ L x) l) ∪ A = ⋃ (map (λ x, E x ∪ L x) l) ∪ A.
Proof.
  intros H. induction l as [|x l IH]; [done|]. cbn.
  specialize (H x). set_solver.
Qed.

Lemma row_added_row_triples done row n1 n2 :
  row_added (ids_of done) row n1 n2 ∪ abox_of done =
  row_triples (ids_of (done ++ [row])) row n1 n2 ∪ abox_of done.
Proof.
  unfold row_added, row_triples, dim_triples. cbn zeta.
  rewrite <- !(assoc_L (∪)). f_equal.
  erewrite (map_ext (λ d, entity_triples _ _ _ ∪ _)).
  2:{ intros d. rewrite ids_of_snoc. reflexivity. }
  apply (union_list_absorbed
    (λ d, new_entity d (cell row (dim_column d)) (ids_of done d))
    (λ d, entity_triples d (cell row (dim_column d))
            (assign (cell row (dim_column d)) (ids_of done d) !!! cell row (dim_column d)))).
  intros d. apply new_entity_absorbed. intros i. apply entity_in_abox_of.
Qed.

Lemma row_added_ext (m m' : dim → gmap string nat) row n1 n2 :
  (∀ d, m d = m' d) → row_added m row n1 n2 = row_added m' row n1 n2.
Proof.
  intros H. unfold row_added. f_equal. f_equal. apply map_ext. intros d.
  by rewrite H.
Qed.

Lemma Inv_init : Inv [] init_state.
Proof. split; try done. by intros []. Qed.

Lemma Inv_step done row st :
  Inv done st → has_columns row = true →
  ∃ st', process_row row st = ok st' ∧ Inv (done ++ [row]) st'.
Proof.
  intros [Hm H1 H2 Ha] Hc.
  destruct (process_row_spec row st Hc) as (st' & Hp & Hm' & H1' & H2' & Ha').
  exists st'. split; [done|]. split.
  - intros d. by rewrite Hm', Hm, ids_of_snoc.
  - rewrite H1', H1, length_app. cbn. lia.
  - rewrite H2', H2, length_app. cbn. lia.
  - rewrite Ha', Ha, H1, H2, abox_of_snoc.
    rewrite (row_added_ext _ (ids_of done)) by done.
    rewrite row_added_row_triples. apply (comm_L (∪)).
Qed.

Lemma iterrows_Inv df : ∀ done st,
  Inv done st → forallb has_columns df = true →
  ∃ st', iterrows df st = ok st' ∧ Inv (done ++ df) st'.
Proof.
  induction df as [|row df IH]; intros done st HI Hc.
  - exists st. by rewrite (right_id_L [] (++)).
  - cbn in Hc. apply andb_true_iff in Hc as [Hr Hc].
    destruct (Inv_step done row st HI Hr) as (st1 & Hp & HI1).
    destruct (IH _ _ HI1 Hc) as (st' & Hit & HI').
    exists st'. cbn. rewrite Hp. cbn. split; [done|].
    by rewrite <- (assoc_L (++)) in HI'.
Qed.

(** A run on rows that have the columns ends, in the state the whole input
    stands for. *)
Lemma iterrows_spec df :
  forallb has_columns df = true →
  ∃ st, iterrows df init_state = ok st ∧ Inv df st.
Proof. intros Hc. apply (iterrows_Inv df [] init_state Inv_init Hc). Qed.

(** ** The triples of a row, by shape *)

Lemma elem_of_row_triples m row n1 n2 t :
  t ∈ row_triples m row n1 n2 ↔
  t ∈ fact_triples row n1 n2 ∨ ∃ d, t ∈ dim_triples m d row n1 n2.
Proof.
  unfold row_triples. rewrite elem_of_union, elem_of_union_list. split.
  - intros [?|(X & HX & Ht)]; [by left|right].
    apply list_elem_of_In, in_map_iff in HX as (d & <- & _). eauto.
  - intros [?|[d Ht]]; [by left|right]. eexists. split; [|exact Ht].
    apply list_elem_of_In.
    apply (in_map (λ d, dim_triples m d row n1 n2) all_dims d).
    destruct d; cbn; tauto.
Qed.

Lemma elem_of_wikidata_triples d v id t :
  t ∈ wikidata_triples d v id → ∃ wd, t = (dim_uri d id, OWL "sameAs", wd).
Proof.
  unfold wikidata_triples. destruct d; try (intros []%elem_of_empty).
  destruct (country_wd_map !! v) as [[wd|]|]; try (intros []%elem_of_empty).
  intros ->%elem_of_singleton. eauto.
Qed.

Lemma elem_of_dim_triples m d row n1 n2 t :
  let v := cell row (dim_column d) in
  t ∈ dim_triples m d row n1 n2 ↔
    t = (dim_uri d (m d !!! v), RDF "type", dim_class d) ∨
    t = (dim_uri d (m d !!! v), SKOS "prefLabel", Literal v None None) ∨
    t ∈ wikidata_triples d v (m d !!! v) ∨
    t = (parent_of d row n1 n2, dim_link d, dim_uri d (m d !!! v)).
Proof. unfold dim_triples, entity_triples. cbn. set_unfold. tauto. Qed.

(** Two terms built from explicit text differ. *)
Ltac term_neq H := exfalso; vm_compute in H; discriminate H.

Lemma dim_link_inj d d' : dim_link d = dim_link d' → d = d'.
Proof. destruct d, d'; intros H; try reflexivity; term_neq H. Qed.

Lemma MH_inj a b : MH a = MH b → a = b.
Proof. unfold MH. intros [= H]. by apply String.app_inj in H. Qed.

Lemma dim_uri_inj d i j : dim_uri d i = dim_uri d j → i = j.
Proof.
  unfold dim_uri. intros H%MH_inj%String.app_inj. by apply str_of_nat_inj.
Qed.

Lemma mh_uri_inj i j : mh_uri i = mh_uri j → i = j.
Proof.
  unfold mh_uri. intros H%MH_inj%String.app_inj. by apply str_of_nat_inj.
Qed.

Lemma ls_uri_inj i j : ls_uri i = ls_uri j → i = j.
Proof.
  unfold ls_uri. intros H%MH_inj%String.app_inj. by apply str_of_nat_inj.
Qed.

Lemma user_uri_inj r r' : user_uri r = user_uri r' → cell r "User_ID" = cell r' "User_ID".
Proof. unfold user_uri. by intros H%MH_inj%String.app_inj. Qed.

(** The only triples of a row with the linking property of a dimension
    are the links to the entity of the row's value. *)
Lemma row_triples_link m row n1 n2 d t :
  t ∈ row_triples m row n1 n2 → predicate t = dim_link d →
  t = (parent_of d row n1 n2, dim_link d,
       dim_uri d (m d !!! cell row (dim_column d))).
Proof.
  intros [Ht|[d' Ht]]%elem_of_row_triples Hp.
  - unfold fact_triples in Ht. set_unfold.
    destruct_or!; subst t; cbn in Hp; destruct d; term_neq Hp.
  - apply elem_of_dim_triples in Ht as [->|[->|[(wd & ->)%elem_of_wikidata_triples| ->]]];
      cbn in Hp.
    + destruct d; term_neq Hp.
    + destruct d; term_neq Hp.
    + destruct d; term_neq Hp.
    + by apply dim_link_inj in Hp as ->.
Qed.

(** The typed subjects of a row. *)
Lemma row_triples_type m row n1 n2 t :
  t ∈ row_triples m row n1 n2 → predicate t = RDF "type" →
  t = (user_uri row, RDF "type", MH "Person") ∨
  t = (mh_uri n1, RDF "type", MH "MentalHealth") ∨
  t = (ls_uri n2, RDF "type", MH "Lifestyle") ∨
  t = (meas_uri row, RDF "type", MH "Measurement") ∨
  ∃ d id, t = (dim_uri d id, RDF "type", dim_class d).
Proof.
  intros [Ht|[d' Ht]]%elem_of_row_triples Hp.
  - unfold fact_triples in Ht. set_unfold.
    destruct_or!; subst t; cbn in Hp; try (term_neq Hp); tauto.
  - apply elem_of_dim_triples in Ht as [->|[->|[(wd & ->)%elem_of_wikidata_triples| ->]]];
      cbn in Hp.
    + do 4 right. eauto.
    + term_neq Hp.
    + term_neq Hp.
    + destruct d'; term_neq Hp.
Qed.

Lemma fact_in_abox_of df j row t :
  df !! j = Some row → t ∈ fact_triples row (S j) (S j) → t ∈ abox_of df.
Proof.
  intros Hj Ht. apply elem_of_abox_of. exists j, row. split; [done|].
  apply elem_of_row_triples. by left.
Qed.

Lemma dim_in_abox_of df j row d t :
  df !! j = Some row → t ∈ dim_triples (ids_of df) d row (S j) (S j) → t ∈ abox_of df.
Proof.
  intros Hj Ht. apply elem_of_abox_of. exists j, row. split; [done|].
  apply elem_of_row_triples. eauto.
Qed.

(** ** C1: the dimension normalizer *)

Lemma first_seen_set (vs : list string) :
  list_to_set (first_seen vs) =@{gset string} list_to_set vs.
Proof.
  apply set_eq. intros v. by rewrite !elem_of_list_to_set, elem_of_first_seen.
Qed.

(** C1. For every dimension and every input whose rows carry the columns,
    the run ends and the dict of the dimension gives identifier [k + 1] to
    the value that is [k]-th (from 0) in order of first occurrence, and to
    nothing else; exactly the values of the column have an identifier; two
    values never share one; the identifiers are exactly [1 .. size], the
    size being the number of distinct values; and the link of every row
    points to the entity numbered by the identifier of the row's value. *)
Theorem C1_normalizer_first_occurrence (df : list Row) (d : dim) :
  forallb has_columns df = true →
  ∃ st, iterrows df init_state = ok st ∧
    let m := map_of d st in
    let vs := column d df in
    (∀ v i, m !! v = Some i ↔ ∃ k, i = S k ∧ first_seen vs !! k = Some v) ∧
    (∀ v, v ∈ vs ↔ is_Some (m !! v)) ∧
    (∀ v1 v2 i, m !! v1 = Some i → m !! v2 = Some i → v1 = v2) ∧
    (∀ i, (∃ v, m !! v = Some i) ↔ 1 ≤ i ≤ size m) ∧
    size m = size (list_to_set vs : gset string) ∧
    (∀ j row, df !! j = Some row →
       (parent_of d row (S j) (S j), dim_link d,
        dim_uri d (m !!! cell row (dim_column d))) ∈ abox st).
Proof.
  intros Hc. destruct (iterrows_spec df Hc) as (st & Hit & [Hm _ _ Ha]).
  exists st. split; [done|]. cbn zeta. rewrite Hm, Ha.
  assert (size (ids_of df d) = length (first_seen (column d df))) as Hsz.
  { apply numbering_size, first_seen_NoDup. }
  split_and!.
  - apply ids_of_lookup.
  - intros v. by rewrite <- ids_of_dom, elem_of_dom.
  - intros v1 v2 i (k1 & -> & H1)%ids_of_lookup (k2 & [= <-] & H2)%ids_of_lookup.
    congruence.
  - intros i. split.
    + intros (v & (k & -> & Hk)%ids_of_lookup).
      apply lookup_lt_Some in Hk. lia.
    + intros [H1 H2]. destruct i as [|k]; [lia|].
      destruct (lookup_lt_is_Some_2 (first_seen (column d df)) k) as [v Hv]; [lia|].
      exists v. apply ids_of_lookup. eauto.
  - rewrite Hsz, <- first_seen_set.
    by rewrite size_list_to_set by apply first_seen_NoDup.
  - intros j row Hj. apply (dim_in_abox_of df j row d _ Hj).
    apply elem_of_dim_triples. tauto.
Qed.

(** ** C4: the country scenario *)

Lemma elem_of_subjects_with (p o : term) (g : graph) (s : term) :
  s ∈ subjects_with p o g ↔ (s, p, o) ∈ g.
Proof.
  unfold subjects_with. rewrite elem_of_map. split.
  - intros ([[s' p'] o'] & -> & [[Hp Ho] Ht]%elem_of_filter).
    cbn in *. by subst.
  - intros Ht. exists (s, p, o). split; [done|]. apply elem_of_filter. done.
Qed.

Lemma elem_of_instances (class : term) (g : graph) (s : term) :
  s ∈ instances class g ↔ (s, RDF "type", class) ∈ g.
Proof. apply elem_of_subjects_with. Qed.

(** The persons linked to a country entity are those whose row has the
    value of that entity. *)
Lemma has_country_iff df s id :
  (s, MH "hasCountry", dim_uri Country id) ∈ abox_of df ↔
  ∃ j row, df !! j = Some row ∧ s = user_uri row ∧
           ids_of df Country !!! cell row "Country" = id.
Proof.
  split.
  - intros (j & row & Hj & Ht)%elem_of_abox_of.
    apply (row_triples_link _ _ _ _ Country) in Ht; [|done].
    apply pair_equal_spec in Ht as [[-> _]%pair_equal_spec Hid].
    apply dim_uri_inj in Hid. eauto.
  - intros (j & row & Hj & -> & <-).
    apply (dim_in_abox_of df j row Country _ Hj).
    apply elem_of_dim_triples. tauto.
Qed.

(** C4. Three rows that carry the columns, with countries USA, India, USA
    in that order, the first and the third with different user
    identifiers: the run ends with the country dict [{USA: 1, India: 2}];
    the entities with a hasCountry link to country/1 are the persons of the
    first and third rows, two of them, the only one with a link to
    country/2 is the person of the second row, and the three are typed
    Person. *)
Theorem C4_usa_india_usa (r1 r2 r3 : Row) :
  has_columns r1 = true → has_columns r2 = true → has_columns r3 = true →
  cell r1 "Country" = "USA" → cell r2 "Country" = "India" →
  cell r3 "Country" = "USA" →
  cell r1 "User_ID" ≠ cell r3 "User_ID" →
  ∃ st, iterrows [r1; r2; r3] init_state = ok st ∧
    country_map st = {[ "USA" := 1; "India" := 2 ]} ∧
    subjects_with (MH "hasCountry") (MH "country/1") (abox st)
      = {[ user_uri r1; user_uri r3 ]} ∧
    size (subjects_with (MH "hasCountry") (MH "country/1") (abox st)) = 2 ∧
    subjects_with (MH "hasCountry") (MH "country/2") (abox st) = {[ user_uri r2 ]} ∧
    size (subjects_with (MH "hasCountry") (MH "country/2") (abox st)) = 1 ∧
    {[ user_uri r1; user_uri r2; user_uri r3 ]} ⊆ instances (MH "Person") (abox st).
Proof.
  intros H1 H2 H3 C1 C2 C3 Hne.
  assert (forallb has_columns [r1; r2; r3] = true) as Hc.
  { cbn [forallb]. by rewrite H1, H2, H3. }
  destruct (iterrows_spec _ Hc) as (st & Hit & [Hm _ _ Ha]).
  exists st. split; [done|].
  assert (ids_of [r1; r2; r3] Country = {[ "USA" := 1; "India" := 2 ]}) as Hids.
  { unfold ids_of, column. cbn [fmap list_fmap dim_column]. rewrite C1, C2, C3.
    by vm_compute. }
  assert (subjects_with (MH "hasCountry") (MH "country/1") (abox st)
          = {[ user_uri r1; user_uri r3 ]}) as S1.
  { apply set_eq. intros s. rewrite elem_of_subjects_with, Ha.
    change (MH "country/1") with (dim_uri Country 1).
    rewrite has_country_iff, Hids. split.
    - intros (j & row & Hj & -> & Hid).
      destruct j as [|[|[|j]]]; cbn in Hj; simplify_eq.
      + set_solver.
      + rewrite C2 in Hid. vm_compute in Hid. discriminate.
      + set_solver.
    - intros [->%elem_of_singleton| ->%elem_of_singleton]%elem_of_union.
      + exists 0, r1. by rewrite C1.
      + exists 2, r3. by rewrite C3. }
  assert (subjects_with (MH "hasCountry") (MH "country/2") (abox st)
          = {[ user_uri r2 ]}) as S2.
  { apply set_eq. intros s. rewrite elem_of_subjects_with, Ha.
    change (MH "country/2") with (dim_uri Country 2).
    rewrite has_country_iff, Hids. split.
    - intros (j & row & Hj & -> & Hid).
      destruct j as [|[|[|j]]]; cbn in Hj; simplify_eq.
      + rewrite C1 in Hid. vm_compute in Hid. discriminate.
      + set_solver.
      + rewrite C3 in Hid. vm_compute in Hid. discriminate.
    - intros ->%elem_of_singleton. exists 1, r2. by rewrite C2. }
  split_and!.
  - change (country_map st) with (map_of Country st). by rewrite Hm.
  - done.
  - rewrite S1, size_union, !size_singleton; [done|].
    apply disjoint_singleton_l. intros E%elem_of_singleton.
    by apply user_uri_inj in E.
  - done.
  - rewrite S2. apply size_singleton.
  - intros s Hs. apply elem_of_instances. rewrite Ha.
    assert (∃ j row, [r1; r2; r3] !! j = Some row ∧ s = user_uri row)
      as (j & row & Hj & ->).
    { set_unfold. destruct Hs as [[->| ->]| ->];
        [exists 0, r1|exists 1, r2|exists 2, r3]; done. }
    apply (fact_in_abox_of _ j row _ Hj). unfold fact_triples. set_solver.
Qed.

(** The scenario of C4 on an explicit input. *)
Lemma C4_usa_india_usa_witness :
  ∃ st, iterrows usa_india_usa init_state = ok st ∧
        country_map st = {[ "USA" := 1; "India" := 2 ]}.
Proof.
  destruct (C4_usa_india_usa
              (usa_india_usa !!! 0) (usa_india_usa !!! 1) (usa_india_usa !!! 2))
    as (st & Hst & Hm & _); [by vm_compute..|].
  exists st. split; [exact Hst|exact Hm].
Defined.

(** ** C5: one mental-health and one lifestyle instance per row *)

Lemma instances_mental_health df :
  instances (MH "MentalHealth") (abox_of df) = list_to_set (mh_uri <$> seq 1 (length df)).
Proof.
  apply set_eq. intros s.
  rewrite elem_of_instances, elem_of_list_to_set, list_elem_of_fmap. split.
  - intros (j & row & Hj & Ht)%elem_of_abox_of.
    apply row_triples_type in Ht as [Ht|[Ht|[Ht|[Ht|(d & id & Ht)]]]]; [| | | | |done].
    + apply pair_equal_spec in Ht as [_ Ht]. term_neq Ht.
    + apply pair_equal_spec in Ht as [[-> _]%pair_equal_spec _].
      exists (S j). split; [done|]. apply elem_of_seq.
      apply lookup_lt_Some in Hj. lia.
    + apply pair_equal_spec in Ht as [_ Ht]. term_neq Ht.
    + apply pair_equal_spec in Ht as [_ Ht]. term_neq Ht.
    + apply pair_equal_spec in Ht as [_ Ht]. destruct d; term_neq Ht.
  - intros (n & -> & Hn%elem_of_seq). destruct n as [|j]; [lia|].
    destruct (lookup_lt_is_Some_2 df j) as [row Hj]; [lia|].
    apply (fact_in_abox_of _ j row _ Hj). unfold fact_triples. set_solver.
Qed.

Lemma instances_lifestyle df :
  instances (MH "Lifestyle") (abox_of df) = list_to_set (ls_uri <$> seq 1 (length df)).
Proof.
  apply set_eq. intros s.
  rewrite elem_of_instances, elem_of_list_to_set, list_elem_of_fmap. split.
  - intros (j & row & Hj & Ht)%elem_of_abox_of.
    apply row_triples_type in Ht as [Ht|[Ht|[Ht|[Ht|(d & id & Ht)]]]]; [| | | | |done].
    + apply pair_equal_spec in Ht as [_ Ht]. term_neq Ht.
    + apply pair_equal_spec in Ht as [_ Ht]. term_neq Ht.
    + apply pair_equal_spec in Ht as [[-> _]%pair_equal_spec _].
      exists (S j). split; [done|]. apply elem_of_seq.
      apply lookup_lt_Some in Hj. lia.
    + apply pair_equal_spec in Ht as [_ Ht]. term_neq Ht.
    + apply pair_equal_spec in Ht as [_ Ht]. destruct d; term_neq Ht.
  - intros (n & -> & Hn%elem_of_seq). destruct n as [|j]; [lia|].
    destruct (lookup_lt_is_Some_2 df j) as [row Hj]; [lia|].
    apply (fact_in_abox_of _ j row _ Hj). unfold fact_triples. set_solver.
Qed.

Lemma size_numbered (f : nat → term) n :
  (∀ i j, f i = f j → i = j) →
  size (list_to_set (f <$> seq 1 n) : gset term) = n.
Proof.
  intros Hf. rewrite size_list_to_set.
  - by rewrite length_fmap, length_seq.
  - apply NoDup_fmap_2; [|apply NoDup_seq]. intros i j. apply Hf.
Qed.

(** C5. For every input of rows that carry the columns, the run ends; the
    MentalHealth instances of the graph are mental_health/1 ..
    mental_health/N and the Lifestyle instances lifestyle/1 .. lifestyle/N,
    N of each for N rows whatever the rows hold; the instance of row [j]
    (from 0) is numbered [j + 1], the MentalHealth one carries the label of
    the row and a link to a typed Severity, Consultation, StressLevel and
    Medication entity, the Lifestyle one a link to a typed DietQuality,
    SmokingHabit and AlcoholConsumption entity, and the person of the row
    is linked to both. *)
Theorem C5_fresh_instances_per_row (df : list Row) :
  forallb has_columns df = true →
  ∃ st, iterrows df init_state = ok st ∧
    instances (MH "MentalHealth") (abox st) = list_to_set (mh_uri <$> seq 1 (length df)) ∧
    size (instances (MH "MentalHealth") (abox st)) = length df ∧
    instances (MH "Lifestyle") (abox st) = list_to_set (ls_uri <$> seq 1 (length df)) ∧
    size (instances (MH "Lifestyle") (abox st)) = length df ∧
    (∀ j row, df !! j = Some row →
       (user_uri row, MH "hasMentalHealth", mh_uri (S j)) ∈ abox st ∧
       (user_uri row, MH "hasLifestyle", ls_uri (S j)) ∈ abox st ∧
       (mh_uri (S j), RDFS "label",
          Literal (cell row "Mental_Health_Condition") None None) ∈ abox st ∧
       (∀ d, d ∈ [Severity; Consultation; Stress; Medication] →
          ∃ id, (mh_uri (S j), dim_link d, dim_uri d id) ∈ abox st ∧
                (dim_uri d id, RDF "type", dim_class d) ∈ abox st) ∧
       (∀ d, d ∈ [Diet; Smoking; Alcohol] →
          ∃ id, (ls_uri (S j), dim_link d, dim_uri d id) ∈ abox st ∧
                (dim_uri d id, RDF "type", dim_class d) ∈ abox st)).
Proof.
  intros Hc. destruct (iterrows_spec df Hc) as (st & Hit & [Hm _ _ Ha]).
  exists st. split; [done|]. rewrite Ha.
  rewrite instances_mental_health, instances_lifestyle.
  split_and!; try done.
  - apply size_numbered, mh_uri_inj.
  - apply size_numbered, ls_uri_inj.
  - intros j row Hj. split_and!.
    + apply (fact_in_abox_of _ j row _ Hj). unfold fact_triples. set_solver.
    + apply (fact_in_abox_of _ j row _ Hj). unfold fact_triples. set_solver.
    + apply (fact_in_abox_of _ j row _ Hj). unfold fact_triples. set_solver.
    + intros d Hd. exists (ids_of df d !!! cell row (dim_column d)).
      split; apply (dim_in_abox_of df j row d _ Hj); apply elem_of_dim_triples;
        [|tauto].
      do 3 right. f_equal. f_equal.
      set_unfold. destruct Hd as [->|[->|[->|[->|[]]]]]; reflexivity.
    + intros d Hd. exists (ids_of df d !!! cell row (dim_column d)).
      split; apply (dim_in_abox_of df j row d _ Hj); apply elem_of_dim_triples;
        [|tauto].
      do 3 right. f_equal. f_equal.
      set_unfold. destruct Hd as [->|[->|[->|[]]]]; reflexivity.
Qed.

(** C5 on an explicit input. *)
Lemma C5_fresh_instances_per_row_witness :
  forallb has_columns usa_india_usa = true ∧
  ∃ st, iterrows usa_india_usa init_state = ok st ∧
        size (instances (MH "MentalHealth") (abox st)) = 3 ∧
        size (instances (MH "Lifestyle") (abox st)) = 3.
Proof.
  split; [by vm_compute|].
  destruct (C5_fresh_instances_per_row usa_india_usa)
    as (st & Hst & _ & Hmh & _ & Hls & _); [by vm_compute|].
  exists st. split; [exact Hst|]. split; [exact Hmh|exact Hls].
Defined.

(** C1 on an explicit input: the countries USA, India, USA. *)
Lemma C1_normalizer_first_occurrence_witness :
  forallb has_columns usa_india_usa = true ∧
  ∃ st, iterrows usa_india_usa init_state = ok st ∧
        (∀ i, (∃ v, map_of Country st !! v = Some i) ↔ 1 ≤ i ≤ size (map_of Country st)).
Proof.
  split; [by vm_compute|].
  destruct (C1_normalizer_first_occurrence usa_india_usa Country)
    as (st & Hst & _ & _ & _ & Hd & _); [by vm_compute|].
  exists st. split; [exact Hst|exact Hd].
Defined.

(** ** C6: numeric fields are not validated *)

Lemma process_row_missing row st :
  has_columns row = false →
  ∃ col, col ∈ columns ∧ row !! col = None ∧ process_row row st = raise (KeyError col).
Proof.
  intros Hc. unfold process_row, getitem, dim_column.
  repeat lazymatch goal with
  | |- context [ row !! ?c ] =>
      destruct (row !! c) as [?|] eqn:?; cbn [result_bind ok raise];
      [| exists c; split_and!; [set_solver|done|done] ]
  end.
  exfalso. unfold has_columns, columns in Hc. cbn [forallb] in Hc.
  repeat match goal with H : row !! _ = Some _ |- _ => rewrite H in Hc; clear H end.
  discriminate Hc.
Qed.

Lemma iterrows_missing df : ∀ st,
  forallb has_columns df = false →
  ∃ col, col ∈ columns ∧ iterrows df st = raise (KeyError col).
Proof.
  induction df as [|row df IH]; intros st Hc; [discriminate|].
  cbn [forallb] in Hc. cbn [iterrows].
  destruct (has_columns row) eqn:Hr.
  - destruct (process_row_spec row st Hr) as (st1 & -> & _).
    cbn. apply IH. done.
  - destruct (process_row_missing row st Hr) as (col & Hcol & _ & ->).
    exists col. done.
Qed.

(** C6, the claim fails. A row whose age is the text [abc] and whose sleep
    hours are missing: neither is the text of a number, yet the run
    completes without an error and writes the instance graph. *)
Lemma C6_malformed_counterexample :
  Forall (λ row, numeric_text (cell row "Age") = false ∧
                 numeric_text (cell row "Sleep_Hours") = false) malformed_rows ∧
  (generate_snowflake_ttl malformed_rows).1 = ok tt ∧
  is_Some ((generate_snowflake_ttl malformed_rows).2 !! "abox.ttl").
Proof.
  split_and!.
  - repeat constructor.
  - by vm_compute.
  - unfold generate_snowflake_ttl.
    destruct (iterrows_spec malformed_rows) as (st & -> & _); [by vm_compute|].
    cbn. rewrite lookup_insert_eq. eauto.
Qed.

(** C6, as the code has it. The cells are never validated: on every input
    whose rows carry the seventeen columns the run completes, whatever the
    text of the numeric cells, and leaves both files, the instance file
    holding the graph of the whole input; the only failure is the KeyError
    of a row that lacks a column, and then the instance file is not
    written (the schema file, written before the rows are read, is). *)
Theorem C6_no_validation (df : list Row) :
  (forallb has_columns df = true →
     generate_snowflake_ttl df =
       (ok tt, {[ "tbox.ttl" := tbox; "abox.ttl" := abox_of df ]})) ∧
  (forallb has_columns df = false →
     ∃ col, col ∈ columns ∧
       generate_snowflake_ttl df = (raise (KeyError col), {[ "tbox.ttl" := tbox ]})).
Proof.
  unfold generate_snowflake_ttl. split; intros Hc.
  - destruct (iterrows_spec df Hc) as (st & -> & [_ _ _ Ha]).
    cbn. rewrite Ha. reflexivity.
  - destruct (iterrows_missing df init_state Hc) as (col & Hcol & ->).
    exists col. done.
Qed.

(** C6 on explicit inputs: the malformed row, and a row without columns. *)
Lemma C6_no_validation_witness :
  forallb has_columns malformed_rows = true ∧
  forallb has_columns [∅ : Row] = false ∧
  generate_snowflake_ttl malformed_rows =
    (ok tt, {[ "tbox.ttl" := tbox; "abox.ttl" := abox_of malformed_rows ]}) ∧
  ∃ col, col ∈ columns ∧
    generate_snowflake_ttl [∅ : Row] = (raise (KeyError col), {[ "tbox.ttl" := tbox ]}).
Proof.
  split; [by vm_compute|]. split; [by vm_compute|]. split.
  - apply (proj1 (C6_no_validation malformed_rows)). by vm_compute.
  - apply (proj2 (C6_no_validation [∅])). by vm_compute.
Defined.

(** ** The subsampler *)

Section Subsampler.

Variable int : string → option Z.

Lemma user_within_cases s T :
  (user_within int s T = raise ValueError ∧
     Py.str_in "user/" (str s) = true ∧
     int (Py.last_item (Py.split "/" (str s))) = None) ∨
  (∃ b, user_within int s T = ok b ∧
     (b = true ↔ Py.str_in "user/" (str s) = true ∧
                 ∃ n, int (Py.last_item (Py.split "/" (str s))) = Some n ∧ (n ≤ T)%Z) ∧
     (Py.str_in "user/" (str s) = true →
        is_Some (int (Py.last_item (Py.split "/" (str s)))))).
Proof.
  unfold user_within. destruct (Py.str_in "user/" (str s)) eqn:Hu.
  - destruct (int _) as [n|] eqn:Hn; [right|left; done].
    exists (n <=? T)%Z. split; [done|]. split; [|eauto]. split.
    + intros H%Z.leb_le. eauto.
    + intros (_ & n' & [= <-] & H). by apply Z.leb_le.
  - right. exists false. split; [done|]. split; [|done]. split; [done|].
    by intros [? _].
Qed.

(** The tests of lines 120-125 against their meaning. *)
Lemma person_rooted_iff (t : triple) :
  person_rooted t ↔ Py.str_in "user/" (str (subject t)) = true.
Proof. unfold person_rooted. by rewrite str_in_occurs. Qed.

Lemma occurs_user_slash s : occurs "user/" s → occurs "/" s.
Proof.
  intros (a & b & ->). exists (a +:+ "user"), b. by rewrite append_assoc'.
Qed.

Lemma row_identifier_iff (t : triple) n :
  person_rooted t →
  row_identifier int t n ↔ int (Py.last_item (Py.split "/" (str (subject t)))) = Some n.
Proof.
  intros Hp%occurs_user_slash. unfold row_identifier. split.
  - intros (b & Hb & Hn). apply (after_last_slash_iff _ _ Hp) in Hb. by subst b.
  - intros Hn. eexists. split; [|exact Hn]. by apply after_last_slash_iff.
Qed.

Lemma dimension_triple_iff (t : triple) :
  dimension_triple t ↔ is_dimension (subject t) = true.
Proof.
  unfold dimension_triple, is_dimension. rewrite !orb_true_iff, !str_in_occurs. split.
  - intros (p & Hp%list_elem_of_In & Ho). cbn in Hp.
    destruct_or! Hp; try done; subst p; tauto.
  - intros H. destruct_or! H; (eexists; split; [|exact H]);
      apply list_elem_of_In; cbn; tauto.
Qed.

Lemma kept_spec T (t : triple) :
  (person_rooted t → ∃ n, row_identifier int t n) →
  kept int T t = true ↔
    (person_rooted t ∧ ∃ n, row_identifier int t n ∧ (n ≤ T)%Z) ∨ dimension_triple t.
Proof.
  intros Hr. rewrite dimension_triple_iff. unfold kept.
  destruct (user_within_cases (subject t) T) as [(-> & Hu & Hn)|(b & -> & Hb & _)].
  - apply person_rooted_iff in Hu. destruct (Hr Hu) as [n Hn'].
    apply (row_identifier_iff _ _ Hu) in Hn'. congruence.
  - destruct b.
    + split; [|done]. intros _. left. destruct (proj1 Hb eq_refl) as (Hu & n & Hn & Hle).
      apply person_rooted_iff in Hu. split; [done|]. exists n.
      split; [by apply row_identifier_iff|done].
    + split; [by right|]. intros [(Hu & n & Hn & Hle)|H]; [|done].
      apply (row_identifier_iff _ _ Hu) in Hn. apply person_rooted_iff in Hu.
      assert (false = true) by (apply Hb; eauto). done.
Qed.

Lemma graph_add_world l t w :
  graph_add l t w = (ok tt, mkWorld (alter (add t) l (graphs w)) (ticks w) (stdout w)).
Proof. reflexivity. Qed.

Lemma same_except_refl l w : same_except l w w.
Proof. done. Qed.

Lemma same_except_trans l w1 w2 w3 :
  same_except l w1 w2 → same_except l w2 w3 → same_except l w1 w3.
Proof.
  intros (H1 & H2 & H3) (H1' & H2' & H3'). split_and!.
  - intros l' Hl. by rewrite H1', H1.
  - congruence.
  - congruence.
Qed.

Lemma subsample_step_ok l T t w b :
  user_within int (subject t) T = inr b →
  subsample_step int l T t w = (ok tt, if kept int T t then (graph_add l t w).2 else w).
Proof.
  destruct t as [[s p] o]. unfold subsample_step, kept. cbn [subject fst].
  intros ->. destruct b; [done|]. destruct (is_dimension s); done.
Qed.

Lemma subsample_step_err l T t w e :
  user_within int (subject t) T = inl e → subsample_step int l T t w = (raise e, w).
Proof.
  destruct t as [[s p] o]. unfold subsample_step. cbn [subject fst].
  by intros ->.
Qed.

Lemma user_within_result s T :
  user_within int s T = inl ValueError ∨ ∃ b, user_within int s T = inr b.
Proof.
  destruct (user_within_cases s T) as [(H & _)|(b & H & _)]; [by left|right; eauto].
Qed.

Lemma graph_add_frame l t w : same_except l w (graph_add l t w).2.
Proof.
  split_and!; [|done..]. intros l' Hl. cbn. by rewrite lookup_alter_ne.
Qed.

Lemma graph_add_lookup l t w S :
  graphs w !! l = Some S → graphs (graph_add l t w).2 !! l = Some ({[ t ]} ∪ S).
Proof. intros H. cbn. by rewrite lookup_alter_eq, H, <- add_union. Qed.

(** The loop of the subsampler: it touches the new graph object only; it
    ends without an exception exactly when no subject makes [int] raise,
    and then the new object has received the triples to keep. *)
Lemma subsample_loop l T ts : ∀ w S,
  graphs w !! l = Some S →
  ∃ r w', bench_for ts (subsample_step int l T) w = (r, w') ∧
    same_except l w w' ∧
    (Forall (λ t, user_within int (subject t) T ≠ inl ValueError) ts →
       (∃ us, r = inr us) ∧
       graphs w' !! l = Some (list_to_set (filter (λ t, kept int T t = true) ts) ∪ S)) ∧
    (¬ Forall (λ t, user_within int (subject t) T ≠ inl ValueError) ts →
       r = inl ValueError).
Proof.
  induction ts as [|t ts IH]; intros w S Hl.
  - exists (ok []), w. split; [done|]. split; [done|]. split.
    + intros _. split; [by eexists|]. rewrite Hl. f_equal. set_solver.
    + intros []. constructor.
  - cbn [bench_for]. unfold bench_bind at 1.
    destruct (user_within_result (subject t) T) as [Hu|[b Hu]].
    + rewrite (subsample_step_err _ _ _ _ _ Hu).
      exists (inl ValueError), w. split; [done|]. split; [done|]. split; [|done].
      intros [HF _]%Forall_cons. done.
    + rewrite (subsample_step_ok _ _ _ _ _ Hu).
      set (w1 := if kept int T t then (graph_add l t w).2 else w).
      set (S1 := if kept int T t then {[ t ]} ∪ S else S).
      assert (graphs w1 !! l = Some S1) as Hl1.
      { unfold w1, S1. destruct (kept int T t); [by apply graph_add_lookup|done]. }
      assert (same_except l w w1) as Hfr1.
      { unfold w1. destruct (kept int T t); [apply graph_add_frame|done]. }
      destruct (IH w1 S1 Hl1) as (r & w' & Hloop & Hfr' & Hok & Herr).
      unfold bench_bind. rewrite Hloop.
      assert (Forall (λ t, user_within int (subject t) T ≠ inl ValueError) (t :: ts) ↔
              Forall (λ t, user_within int (subject t) T ≠ inl ValueError) ts) as HF.
      { rewrite Forall_cons. split; [tauto|]. intros ?. split; [|done].
        by rewrite Hu. }
      destruct r as [e|us].
      * exists (inl e), w'. split; [done|]. split; [by eapply same_except_trans|].
        split.
        -- intros [[us Hus] _]%HF%Hok. done.
        -- rewrite HF. apply Herr.
      * exists (ok (tt :: us)), w'. split; [done|].
        split; [by eapply same_except_trans|]. split.
        -- intros [_ Hw']%HF%Hok. split; [by eexists|].
           rewrite Hw'. f_equal. unfold S1. rewrite filter_cons.
           destruct (kept int T t).
           ++ rewrite decide_True by done. set_solver.
           ++ rewrite decide_False by done. done.
        -- rewrite HF. intros Hn. by specialize (Herr Hn).
Qed.

Lemma readable_iff (G : graph) T :
  identifiers_readable int G ↔
  Forall (λ t, user_within int (subject t) T ≠ inl ValueError) (elements G).
Proof.
  unfold identifiers_readable. rewrite Forall_forall. split; intros H t Ht.
  - apply elem_of_elements in Ht.
    destruct (user_within_cases (subject t) T) as [(_ & Hu & Hn)|(b & -> & _)]; [|done].
    apply person_rooted_iff in Hu. destruct (H t Ht Hu) as [n Hn'].
    apply (row_identifier_iff _ _ Hu) in Hn'. congruence.
  - intros Hu. apply elem_of_elements in Ht. specialize (H t Ht).
    destruct (user_within_cases (subject t) T) as [(He & _)|(b & _ & _ & Hs)]; [done|].
    destruct Hs as [n Hn]; [by apply person_rooted_iff|].
    exists n. by apply row_identifier_iff.
Qed.

(** The subsampler as a whole: the object it returns is new, every other
    object, the clock and the console are as before, and the new object
    holds the triples to keep, unless [int] raises. *)
Lemma create_subsampled_graph_spec gr T w G :
  graphs w !! gr = Some G →
  let l := fresh (dom (graphs w)) in
  ∃ r w', create_subsampled_graph int gr T w = (r, w') ∧
    graphs w !! l = None ∧
    same_except l w w' ∧
    (identifiers_readable int G →
       r = ok l ∧ graphs w' !! l = Some (filter (λ t, kept int T t = true) G)) ∧
    (¬ identifiers_readable int G → r = raise ValueError).
Proof.
  intros Hgr l.
  assert (graphs w !! l = None) as Hl.
  { apply not_elem_of_dom, is_fresh. }
  assert (gr ≠ l) as Hne by (intros ->; congruence).
  unfold create_subsampled_graph, bench_bind, new_graph, graph_iter. fold l.
  cbn [graphs].
  rewrite lookup_total_insert_ne by done.
  rewrite (lookup_total_correct _ _ _ Hgr).
  set (w1 := mkWorld (<[l:=∅]> (graphs w)) (ticks w) (stdout w)).
  unfold ok. cbv beta iota.
  destruct (subsample_loop l T (elements G) w1 ∅) as (r & w' & -> & Hfr & Hok & Herr).
  { cbn. apply lookup_insert_eq. }
  assert (same_except l w w') as Hfr'.
  { apply (same_except_trans _ _ w1); [|done].
    split_and!; [|done..]. intros l' Hl'. cbn. by rewrite lookup_insert_ne. }
  pose proof (readable_iff G T) as HR.
  destruct r as [e|us].
  - exists (inl e), w'. split; [done|]. split; [done|]. split; [done|]. split.
    + intros [[us Hus] _]%HR%Hok. done.
    + intros Hn. rewrite HR in Hn. apply Herr in Hn. by injection Hn as ->.
  - exists (inr l), w'. split; [done|]. split; [done|]. split; [done|]. split.
    + intros [_ Hw']%HR%Hok. split; [done|]. rewrite Hw'. f_equal.
      apply set_eq. intros t.
      rewrite elem_of_union, elem_of_list_to_set, list_elem_of_filter,
        elem_of_elements, elem_of_filter. set_solver.
    + intros Hn. rewrite HR in Hn. apply Herr in Hn. discriminate Hn.
Qed.

End Subsampler.

(** ** C2: the subsampler *)

(** C2, the claim fails. On a graph with the subject [.../user/abc] the
    subsampler returns no graph: [int] raises ValueError on [abc]. *)
Lemma C2_unreadable_counterexample :
  (create_subsampled_graph Py.int_ascii 0 10000 (loaded unreadable_graph)).1
  = raise ValueError.
Proof. by vm_compute. Qed.

(** C2, as the code has it, whatever [int] reads. Take a graph in which
    every subject in which [user/] occurs carries, after its last slash, a
    text that [int] reads. For every threshold the subsampler returns a new
    graph that holds exactly the triples of the input in whose subject
    [user/] occurs and whose identifier, the integer read after the last
    slash, is at most the threshold, together with all the triples in whose
    subject one of the ten dimension paths occurs. On any other graph it
    raises ValueError. *)
Theorem C2_subsample
    (int : string → option Z) (G : graph) (T : Z) (w : World) (gr : nat) :
  graphs w !! gr = Some G →
  (identifiers_readable int G →
     ∃ sub_g w' S,
       create_subsampled_graph int gr T w = (ok sub_g, w') ∧
       graphs w !! sub_g = None ∧
       graphs w' !! sub_g = Some S ∧
       ∀ t, t ∈ S ↔
            t ∈ G ∧
            ((person_rooted t ∧ ∃ n, row_identifier int t n ∧ (n ≤ T)%Z) ∨
             dimension_triple t)) ∧
  (¬ identifiers_readable int G →
     ∃ w', create_subsampled_graph int gr T w = (raise ValueError, w')).
Proof.
  intros Hgr.
  destruct (create_subsampled_graph_spec int gr T w G Hgr)
    as (r & w' & Hrun & Hnew & _ & Hok & Herr).
  split.
  - intros HG. destruct (Hok HG) as [-> HS].
    eexists _, w', _. split; [exact Hrun|]. split; [done|]. split; [exact HS|].
    intros t. rewrite elem_of_filter. split.
    + intros [Hk Ht]. split; [done|]. apply kept_spec; [|done]. by apply HG.
    + intros [Ht Hk]. split; [|done]. apply kept_spec; [|done]. by apply HG.
  - intros HG. rewrite (Herr HG) in Hrun. eauto.
Qed.

Lemma tbox_no_user (t : triple) :
  t ∈ tbox → Py.str_in "user/" (str (subject t)) = false ∧ is_dimension (subject t) = false.
Proof.
  revert t.
  change (set_Forall (λ t : triple,
            Py.str_in "user/" (str (subject t)) = false ∧
            is_dimension (subject t) = false) tbox).
  apply (bool_decide_unpack _). by vm_compute.
Qed.

Lemma tbox_no_person (t : triple) : t ∈ tbox → ¬ person_rooted t.
Proof.
  intros Ht Hp%person_rooted_iff. destruct (tbox_no_user t Ht) as [Hu _]. congruence.
Qed.

Lemma tbox_readable int : identifiers_readable int tbox.
Proof. intros t Ht Hp. exfalso. exact (tbox_no_person t Ht Hp). Qed.

Lemma people_and_gender_readable : identifiers_readable Py.int_ascii people_and_gender.
Proof. apply (readable_iff Py.int_ascii _ 0). apply (bool_decide_unpack _). by vm_compute. Qed.

Lemma unreadable_graph_unreadable : ¬ identifiers_readable Py.int_ascii unreadable_graph.
Proof.
  rewrite (readable_iff Py.int_ascii _ 0). apply (bool_decide_unpack _). by vm_compute.
Qed.

(** C2 on explicit graphs. With threshold 10000, of two persons, a
    measurement and a gender entity the subsample keeps the person 1 and
    the gender entity, and drops the person 20000 and the measurement; on
    the unreadable graph the subsampler raises. *)
Lemma C2_subsample_witness :
  graphs (loaded people_and_gender) !! 0 = Some people_and_gender ∧
  identifiers_readable Py.int_ascii people_and_gender ∧
  ¬ identifiers_readable Py.int_ascii unreadable_graph ∧
  (∃ sub_g w' S,
     create_subsampled_graph Py.int_ascii 0 10000 (loaded people_and_gender)
       = (ok sub_g, w') ∧
     graphs w' !! sub_g = Some S ∧
     (MH "user/1", RDF "type", MH "Person") ∈ S ∧
     (MH "gender/1", RDF "type", MH "Gender") ∈ S ∧
     ((MH "user/20000", RDF "type", MH "Person") ∉ S) ∧
     ((MH "measurement/1", RDF "type", MH "Measurement") ∉ S)) ∧
  ∃ w', create_subsampled_graph Py.int_ascii 0 10000 (loaded unreadable_graph)
        = (raise ValueError, w').
Proof.
  split; [reflexivity|]. split; [exact people_and_gender_readable|].
  split; [exact unreadable_graph_unreadable|]. split.
  - destruct (proj1 (C2_subsample Py.int_ascii people_and_gender 10000
                       (loaded people_and_gender) 0 eq_refl) people_and_gender_readable)
      as (sub_g & w' & S & Hrun & _ & HS & Hiff).
    exists sub_g, w', S. split; [exact Hrun|]. split; [exact HS|]. split_and!.
    + apply Hiff. split; [apply (bool_decide_unpack _); by vm_compute|]. left.
      assert (person_rooted (MH "user/1", RDF "type", MH "Person")) as Hp.
      { apply person_rooted_iff. by vm_compute. }
      split; [exact Hp|]. exists 1%Z. split; [|lia].
      apply (row_identifier_iff _ _ _ Hp). by vm_compute.
    + apply Hiff. split; [apply (bool_decide_unpack _); by vm_compute|]. right.
      apply dimension_triple_iff. by vm_compute.
    + intros [_ [(Hp & n & Hn & Hle)|Hd]]%Hiff.
      * apply (row_identifier_iff _ _ _ Hp) in Hn. vm_compute in Hn.
        injection Hn as <-. lia.
      * apply dimension_triple_iff in Hd. vm_compute in Hd. discriminate Hd.
    + intros [_ [(Hp & _)|Hd]]%Hiff.
      * apply person_rooted_iff in Hp. vm_compute in Hp. discriminate Hp.
      * apply dimension_triple_iff in Hd. vm_compute in Hd. discriminate Hd.
  - exact (proj2 (C2_subsample Py.int_ascii unreadable_graph 10000
                    (loaded unreadable_graph) 0 eq_refl) unreadable_graph_unreadable).
Defined.

(** ** C10: the benchmark only reads the loaded graph *)

Section Measure.

Variable clock : nat → Z.
Variable engine : graph → query → result (list (list Sparql.binding)).

Lemma measure_ok gr name q w G rows :
  graphs w !! gr = Some G → engine G q = inr rows →
  measure_query_time clock engine gr name q w =
    (ok (mkBenchmark name (clock (S (ticks w)) - clock (ticks w)) (length rows)),
     mkWorld (graphs w) (S (S (ticks w))) (stdout w)).
Proof.
  intros HG Hq. unfold measure_query_time, bench_bind, time_time, graph_query.
  cbn. rewrite (lookup_total_correct _ _ _ HG), Hq. reflexivity.
Qed.

Lemma measure_err gr name q w G e :
  graphs w !! gr = Some G → engine G q = inl e →
  measure_query_time clock engine gr name q w =
    (raise e, mkWorld (graphs w) (S (ticks w)) (stdout w)).
Proof.
  intros HG Hq. unfold measure_query_time, bench_bind, time_time, graph_query.
  cbn. rewrite (lookup_total_correct _ _ _ HG), Hq. reflexivity.
Qed.

Lemma measure_graphs gr name q w :
  graphs (measure_query_time clock engine gr name q w).2 = graphs w.
Proof.
  unfold measure_query_time, bench_bind, time_time, graph_query. cbn.
  destruct (engine _ q); reflexivity.
Qed.

End Measure.

(** C10. Measuring a query leaves every graph object as it was, whatever
    the engine answers; building a subsample of an existing graph object
    leaves that object and every other existing object with the triples
    they had, normal return or not, and the object it returns did not exist
    before. *)
Theorem C10_benchmark_only_reads
    (clock : nat → Z) (engine : graph → query → result (list (list Sparql.binding)))
    (int : string → option Z) (w : World) (gr : nat) (G : graph) (name : string) (q : query) (T : Z) :
  graphs w !! gr = Some G →
  graphs (measure_query_time clock engine gr name q w).2 = graphs w ∧
  graphs (create_subsampled_graph int gr T w).2 !! gr = Some G ∧
  (∀ l S, graphs w !! l = Some S →
          graphs (create_subsampled_graph int gr T w).2 !! l = Some S) ∧
  (∀ sub_g, (create_subsampled_graph int gr T w).1 = ok sub_g →
            graphs w !! sub_g = None).
Proof.
  intros Hgr. split; [apply measure_graphs|].
  destruct (create_subsampled_graph_spec int gr T w G Hgr)
    as (r & w' & -> & Hnew & (Hfr & _ & _) & Hok & Herr).
  cbn [fst snd].
  assert (∀ l S, graphs w !! l = Some S → graphs w' !! l = Some S) as Hold.
  { intros l S Hl. rewrite Hfr; [done|]. intros ->. congruence. }
  split; [by apply Hold|]. split; [done|].
  intros sub_g ->.
  destruct (decide (Forall (λ t, user_within int (subject t) T ≠ inl ValueError) (elements G)))
    as [HF|HF].
  - apply (readable_iff int G T) in HF. destruct (Hok HF) as [Heq _].
    injection Heq as ->. exact Hnew.
  - rewrite <- (readable_iff int G T) in HF. specialize (Herr HF). discriminate Herr.
Qed.

(** C10 on an explicit world: the loaded TBox. *)
Lemma C10_benchmark_only_reads_witness :
  graphs (loaded tbox) !! 0 = Some tbox ∧
  graphs (measure_query_time (λ _, 0%Z) engine_without_solution 0
            "slice_high_stress" slice_high_stress (loaded tbox)).2
    = graphs (loaded tbox) ∧
  graphs (create_subsampled_graph Py.int_ascii 0 10000 (loaded tbox)).2 !! 0 = Some tbox.
Proof.
  split; [reflexivity|].
  destruct (C10_benchmark_only_reads (λ _, 0%Z) engine_without_solution Py.int_ascii (loaded tbox) 0 tbox
              "slice_high_stress" slice_high_stress 10000 eq_refl)
    as (Hm & Hs & _).
  split; [exact Hm|exact Hs].
Defined.

(** ** C7: a failing query ends the run *)

(** C7, the claim fails. With an engine that cannot execute the slice
    query, the run on the empty graph ends in that query's exception: the
    clock has been read five times (twice for each of the two queries
    before it, once for it), so the dice query and the subsamples were
    never run, and nothing has been reported. *)
Lemma C7_failing_query_counterexample :
  run_benchmarks (λ _, 0%Z) failing_engine Py.int_ascii 0 (loaded ∅)
  = (raise QueryError, mkWorld {[ 0 := ∅ ]} 5 []).
Proof. by vm_compute. Qed.

(** C7, as the code has it. When the engine raises on a query of the
    catalog on the full graph, and answers the queries before it, the
    exception ends the run at that query: none of the later queries and no
    subsample is run (the clock has been read twice per earlier query and
    once more), and nothing is reported, not even the earlier
    measurements. *)
Theorem C7_first_failure_aborts
    (clock : nat → Z) (engine : graph → query → result (list (list Sparql.binding)))
    (int : string → option Z)
    (G : graph) (i : nat) (name : string) (q : query) (e : exn) :
  queries !! i = Some (name, q) →
  engine G q = raise e →
  (∀ j name' q', j < i → queries !! j = Some (name', q') →
     ∃ rows, engine G q' = ok rows) →
  run_benchmarks clock engine int 0 (loaded G)
  = (raise e, mkWorld {[ 0 := G ]} (2 * i + 1) []).
Proof.
  intros Hi He Hbefore.
  assert (∀ w, graphs w = {[ 0 := G ]} → graphs w !! 0 = Some G) as H0.
  { intros w ->. apply lookup_singleton_eq. }
  unfold run_benchmarks. unfold bench_bind at 1.
  destruct i as [|[|[|[|i]]]]; cbn in Hi; simplify_eq.
  - cbn [bench_for queries]. unfold bench_bind at 1.
    erewrite measure_err; [reflexivity|by apply H0|done].
  - destruct (Hbefore 0 _ _ ltac:(lia) eq_refl) as [r0 E0].
    cbn [bench_for queries]. unfold bench_bind at 1.
    erewrite measure_ok; [|by apply H0|exact E0].
    unfold bench_bind at 1. unfold bench_bind at 1.
    erewrite measure_err; [reflexivity|by apply H0|done].
  - destruct (Hbefore 0 _ _ ltac:(lia) eq_refl) as [r0 E0].
    destruct (Hbefore 1 _ _ ltac:(lia) eq_refl) as [r1 E1].
    cbn [bench_for queries]. unfold bench_bind at 1.
    erewrite measure_ok; [|by apply H0|exact E0].
    unfold bench_bind at 1. unfold bench_bind at 1.
    erewrite measure_ok; [|by apply H0|exact E1].
    unfold bench_bind at 1. unfold bench_bind at 1.
    erewrite measure_err; [reflexivity|by apply H0|done].
  - destruct (Hbefore 0 _ _ ltac:(lia) eq_refl) as [r0 E0].
    destruct (Hbefore 1 _ _ ltac:(lia) eq_refl) as [r1 E1].
    destruct (Hbefore 2 _ _ ltac:(lia) eq_refl) as [r2 E2].
    cbn [bench_for queries]. unfold bench_bind at 1.
    erewrite measure_ok; [|by apply H0|exact E0].
    unfold bench_bind at 1. unfold bench_bind at 1.
    erewrite measure_ok; [|by apply H0|exact E1].
    unfold bench_bind at 1. unfold bench_bind at 1.
    erewrite measure_ok; [|by apply H0|exact E2].
    unfold bench_bind at 1. unfold bench_bind at 1.
    erewrite measure_err; [reflexivity|by apply H0|done].
Qed.

(** C7 on an explicit engine: the one that cannot execute the slice. *)
Lemma C7_first_failure_aborts_witness :
  queries !! 2 = Some ("slice_high_stress", slice_high_stress) ∧
  failing_engine ∅ slice_high_stress = raise QueryError ∧
  run_benchmarks (λ _, 0%Z) failing_engine Py.int_ascii 0 (loaded ∅)
  = (raise QueryError, mkWorld {[ 0 := ∅ ]} 5 []).
Proof.
  split; [reflexivity|]. split; [reflexivity|].
  apply (C7_first_failure_aborts (λ _, 0%Z) failing_engine Py.int_ascii ∅ 2
           "slice_high_stress" slice_high_stress QueryError eq_refl eq_refl).
  intros j name' q' Hj Hq. destruct j as [|[|j]]; [| |lia];
    cbn in Hq; injection Hq as <- <-; exists []; reflexivity.
Defined.

(** ** C3: what a subsample of a generated graph holds *)

Section Subjects.

Variable int : string → option Z.

(** A pattern that ends in a slash occurs in the text of an entity whose
    last segment has no slash exactly when it occurs before that
    segment. *)
Lemma str_in_MH pat p tail :
  Py.ends_with "/" pat = true → Py.has_char "/" tail = false →
  Py.str_in pat (str (MH (p +:+ tail))) = Py.str_in pat (MH_ns +:+ p).
Proof.
  intros Hp Ht. unfold MH, str. rewrite <- append_assoc'.
  by apply (str_in_app_tail "/").
Qed.

Lemma user_within_MH p tail T :
  Py.has_char "/" tail = false → Py.str_in "user/" (MH_ns +:+ p) = false →
  user_within int (MH (p +:+ tail)) T = ok false.
Proof.
  intros Ht Hp. unfold user_within. by rewrite str_in_MH, Hp.
Qed.

Lemma is_dimension_MH p tail :
  Py.has_char "/" tail = false →
  is_dimension (MH (p +:+ tail)) = is_dimension (MH p).
Proof.
  intros Ht. unfold is_dimension. rewrite !str_in_MH by done. reflexivity.
Qed.

(** The subsampler drops an entity [.../p<tail>] when [p] has neither
    [user/] nor a dimension path. *)
Lemma kept_MH p tail T (t : triple) :
  subject t = MH (p +:+ tail) → Py.has_char "/" tail = false →
  Py.str_in "user/" (MH_ns +:+ p) = false →
  is_dimension (MH p) = false →
  kept int T t = false.
Proof.
  intros Hs Ht Hu Hd. unfold kept. rewrite Hs, user_within_MH by done.
  by rewrite is_dimension_MH.
Qed.

Lemma kept_mh_uri T n (t : triple) : subject t = mh_uri n → kept int T t = false.
Proof.
  intros Hs. apply (kept_MH "mental_health/" (Py.str_of_nat n)); try done.
  apply str_of_nat_slash.
Qed.

Lemma kept_ls_uri T n (t : triple) : subject t = ls_uri n → kept int T t = false.
Proof.
  intros Hs. apply (kept_MH "lifestyle/" (Py.str_of_nat n)); try done.
  apply str_of_nat_slash.
Qed.

Lemma kept_meas_uri T row (t : triple) :
  Py.has_char "/" (cell row "User_ID") = false →
  subject t = meas_uri row → kept int T t = false.
Proof.
  intros Hz Hs. by apply (kept_MH "measurement/" (cell row "User_ID")).
Qed.

(** A person whose identifier [int] reads is kept exactly when the
    identifier is within the threshold. *)
Lemma kept_user_uri T row (t : triple) z :
  Py.has_char "/" (cell row "User_ID") = false →
  int (cell row "User_ID") = Some z →
  subject t = user_uri row → kept int T t = (z <=? T)%Z.
Proof.
  intros Hc Hz Hs. unfold kept, user_within. rewrite Hs.
  unfold user_uri. rewrite str_in_MH by done.
  change (Py.str_in "user/" (MH_ns +:+ "user/")) with true. cbv iota.
  change (str (MH ("user/" +:+ cell row "User_ID")))
    with ("http://example.org/mental_health#user" +:+ String "/" (cell row "User_ID")).
  rewrite last_item_split by done. rewrite Hz.
  destruct (z <=? T)%Z; [done|].
  change (MH ("user/" +:+ cell row "User_ID")) with (MH ("user/" +:+ cell row "User_ID")).
  by rewrite is_dimension_MH.
Qed.

(** The subject of a triple of a row is one of the four entities of the
    row or the entity of a dimension value. *)
Lemma row_triples_subject m row n1 n2 (t : triple) :
  t ∈ row_triples m row n1 n2 →
  subject t = user_uri row ∨ subject t = meas_uri row ∨
  subject t = mh_uri n1 ∨ subject t = ls_uri n2 ∨
  ∃ d id, subject t = dim_uri d id.
Proof.
  intros [Ht|[d Ht]]%elem_of_row_triples.
  - unfold fact_triples in Ht. set_unfold. destruct_or!; subst t; cbn; tauto.
  - apply elem_of_dim_triples in Ht
      as [->|[->|[(wd & ->)%elem_of_wikidata_triples| ->]]]; cbn; eauto 10.
    destruct d; cbn; tauto.
Qed.

(** The measures hang from the measurement of the row. *)
Lemma row_triples_measure m row n1 n2 (t : triple) :
  t ∈ row_triples m row n1 n2 →
  predicate t = MH "hasSleepHours" ∨ predicate t = MH "hasWorkHours" →
  subject t = meas_uri row.
Proof.
  intros [Ht|[d Ht]]%elem_of_row_triples Hp.
  - unfold fact_triples in Ht. set_unfold.
    destruct_or!; subst t; cbn in Hp |- *; try done; destruct Hp as [Hp|Hp]; term_neq Hp.
  - apply elem_of_dim_triples in Ht
      as [->|[->|[(wd & ->)%elem_of_wikidata_triples| ->]]]; cbn in Hp;
      destruct Hp as [Hp|Hp]; try (term_neq Hp); destruct d; term_neq Hp.
Qed.

Lemma not_person_rooted_MH p tail (t : triple) :
  subject t = MH (p +:+ tail) → Py.has_char "/" tail = false →
  Py.str_in "user/" (MH_ns +:+ p) = false → ¬ person_rooted t.
Proof.
  intros Hs Ht Hp Hr%person_rooted_iff. rewrite Hs, str_in_MH, Hp in Hr; done.
Qed.

Lemma row_identifier_user_uri row (t : triple) z :
  subject t = user_uri row → Py.has_char "/" (cell row "User_ID") = false →
  int (cell row "User_ID") = Some z → row_identifier int t z.
Proof.
  intros Hs Hc Hz. exists (cell row "User_ID"). split; [|done]. split.
  - by apply has_char_not_occurs.
  - rewrite Hs. by exists (MH_ns +:+ "user").
Qed.

(** In the graph of rows whose identifiers have no slash and are read by
    [int], the subjects that read as persons carry an integer, the
    subsampler drops the subjects of the measures, and it drops every
    subject typed MentalHealth, Lifestyle or Measurement. *)
Lemma abox_of_subjects df (t : triple) :
  Forall (λ row, ¬ occurs "/" (cell row "User_ID") ∧
                 is_Some (int (cell row "User_ID"))) df →
  t ∈ abox_of df →
  (person_rooted t → ∃ n, row_identifier int t n) ∧
  (predicate t = MH "hasSleepHours" ∨ predicate t = MH "hasWorkHours" →
     ∀ T, kept int T t = false) ∧
  (∀ c, c ∈ [MH "MentalHealth"; MH "Lifestyle"; MH "Measurement"] →
     (subject t, RDF "type", c) ∈ abox_of df → ∀ T, kept int T t = false).
Proof.
  intros Hdf (j & row & Hj & Ht)%elem_of_abox_of.
  assert (∀ j row, df !! j = Some row →
            Py.has_char "/" (cell row "User_ID") = false ∧
            is_Some (int (cell row "User_ID"))) as Hrows.
  { intros j' row' Hj'. rewrite Forall_forall in Hdf.
    destruct (Hdf row') as [Hno Hint]; [by eapply list_elem_of_lookup_2|].
    split; [by apply has_char_not_occurs|done]. }
  destruct (Hrows j row Hj) as [Hno [z Hz]].
  split; [|split].
  - intros Hp.
    destruct (row_triples_subject _ _ _ _ _ Ht) as [Hs|[Hs|[Hs|[Hs|(d & id & Hs)]]]].
    + exists z. by apply (row_identifier_user_uri row).
    + exfalso. revert Hp.
      by apply (not_person_rooted_MH "measurement/" (cell row "User_ID")).
    + exfalso. revert Hp.
      apply (not_person_rooted_MH "mental_health/" (Py.str_of_nat (S j))); try done.
      apply str_of_nat_slash.
    + exfalso. revert Hp.
      apply (not_person_rooted_MH "lifestyle/" (Py.str_of_nat (S j))); try done.
      apply str_of_nat_slash.
    + exfalso. revert Hp.
      apply (not_person_rooted_MH (dim_path d) (Py.str_of_nat id)); try done.
      * apply str_of_nat_slash.
      * by destruct d.
  - intros Hp T. apply (kept_meas_uri T row); [done|].
    by apply (row_triples_measure _ _ _ _ _ Ht).
  - intros c Hc (j' & row' & Hj' & Ht')%elem_of_abox_of T.
    destruct (Hrows j' row' Hj') as [Hno' _].
    apply row_triples_type in Ht'; [|done].
    set_unfold in Hc.
    destruct Ht' as [Ht'|[Ht'|[Ht'|[Ht'|(d & id & Ht')]]]];
      injection Ht' as Hs Hc'.
    + destruct Hc as [->|[->|[->|[]]]]; term_neq Hc'.
    + by apply (kept_mh_uri T (S j')).
    + by apply (kept_ls_uri T (S j')).
    + by apply (kept_meas_uri T row').
    + destruct Hc as [->|[->|[->|[]]]]; destruct d; term_neq Hc'.
Qed.

Lemma tbox_dropped T (t : triple) : t ∈ tbox → kept int T t = false.
Proof.
  intros Ht. destruct (tbox_no_user t Ht) as [Hu Hd].
  unfold kept, user_within. by rewrite Hu, Hd.
Qed.

End Subjects.

Lemma tbox_no_class (s c : term) :
  c ∈ [MH "MentalHealth"; MH "Lifestyle"; MH "Measurement"] →
  (s, RDF "type", c) ∉ tbox.
Proof.
  intros Hc Ht.
  assert (set_Forall (λ t : triple,
            predicate t = RDF "type" →
            object t ∉ [MH "MentalHealth"; MH "Lifestyle"; MH "Measurement"])
            tbox) as H.
  { apply (bool_decide_unpack _). by vm_compute. }
  by apply (H _ Ht).
Qed.

(** Each query of the catalog has a pattern on the sleep hours or on the
    work hours. *)
Lemma catalog_needs_measures (name : string) (q : query) :
  (name, q) ∈ queries →
  ∃ s p o, (s, Const p, o) ∈ where_patterns q ∧
           (p = MH "hasSleepHours" ∨ p = MH "hasWorkHours").
Proof.
  intros Hq%list_elem_of_In. cbn in Hq.
  destruct Hq as [[= <- <-]|[[= <- <-]|[[= <- <-]|[[= <- <-]|[]]]]].
  - exists (Var "measurement"), (MH "hasSleepHours"), (Var "sleepHours").
    split; [|by left]. apply list_elem_of_In. cbn. tauto.
  - exists (Var "measurement"), (MH "hasWorkHours"), (Var "workHours").
    split; [|by right]. apply list_elem_of_In. cbn. tauto.
  - exists (Var "measurement"), (MH "hasSleepHours"), (Var "sleepHours").
    split; [|by left]. apply list_elem_of_In. cbn. tauto.
  - exists (Var "measurement"), (MH "hasWorkHours"), (Var "workHours").
    split; [|by right]. apply list_elem_of_In. cbn. tauto.
Qed.

Lemma catalog_without_solution (g : graph) (name : string) (q : query) :
  (∀ t, t ∈ g → predicate t ≠ MH "hasSleepHours" ∧ predicate t ≠ MH "hasWorkHours") →
  (name, q) ∈ queries → without_solution q g.
Proof.
  intros Hg (s & p & o & Hin & Hp)%catalog_needs_measures.
  apply Exists_exists. exists (s, Const p, o). split; [done|].
  intros t Ht (_ & Hm & _). cbn in Hm. destruct (Hg t Ht) as [H1 H2].
  destruct Hp as [-> | ->]; congruence.
Qed.

Lemma catalog_row_counts (name : string) (q : query) :
  (name, q) ∈ queries →
  length (no_solution_answer q) = match select_avg q with Some _ => 1 | None => 0 end.
Proof.
  intros Hq%list_elem_of_In. cbn in Hq.
  destruct Hq as [[= <- <-]|[[= <- <-]|[[= <- <-]|[[= <- <-]|[]]]]]; reflexivity.
Qed.

Lemma engine_without_solution_answers : answers_without_solution engine_without_solution.
Proof. intros g q H. unfold engine_without_solution. by rewrite decide_True. Qed.

(** The subsample of the graph of a run, and the benchmark of the catalog
    on it. *)
Lemma subsample_of_run
    (int : string → option Z)
    (engine : graph → query → result (list (list Sparql.binding)))
    (clock : nat → Z) (df : list Row) (T : Z) :
  forallb has_columns df = true →
  Forall (λ row, ¬ occurs "/" (cell row "User_ID") ∧
                 is_Some (int (cell row "User_ID"))) df →
  answers_without_solution engine →
  ∃ st, iterrows df init_state = ok st ∧
    ∃ sub_g w' S,
      create_subsampled_graph int 0 T (loaded (tbox ∪ abox st)) = (ok sub_g, w') ∧
      graphs w' !! sub_g = Some S ∧
      (∀ t c, t ∈ S →
         c ∈ [MH "MentalHealth"; MH "Lifestyle"; MH "Measurement"] →
         (subject t, RDF "type", c) ∉ tbox ∪ abox st) ∧
      (∀ row n, row ∈ df → int (cell row "User_ID") = Some n → (n ≤ T)%Z →
         (user_uri row, RDF "type", MH "Person") ∈ S) ∧
      (∀ name q, (name, q) ∈ queries → without_solution q S) ∧
      (∀ name q, (name, q) ∈ queries →
         ∃ b w'', measure_query_time clock engine sub_g name q w' = (ok b, w'') ∧
                  row_count b = match select_avg q with Some _ => 1 | None => 0 end).
Proof.
  intros Hc Hdf Heng. destruct (iterrows_spec df Hc) as (st & Hst & [_ _ _ Habox]).
  exists st. split; [done|]. rewrite Habox.
  set (G := tbox ∪ abox_of df).
  assert (identifiers_readable int G) as HG.
  { intros t [Ht|Ht]%elem_of_union Hp.
    - exfalso. exact (tbox_no_person t Ht Hp).
    - by apply (abox_of_subjects int df t Hdf Ht). }
  destruct (create_subsampled_graph_spec int 0 T (loaded G) G eq_refl)
    as (r & w' & Hrun & _ & _ & Hok & _).
  destruct (Hok HG) as [-> HS].
  set (S := filter (λ t, kept int T t = true) G) in HS.
  assert (∀ t, t ∈ S → t ∈ abox_of df ∧ kept int T t = true) as Hin.
  { intros t [Hk [Ht|Ht]%elem_of_union]%elem_of_filter; [|done].
    rewrite (tbox_dropped int T t Ht) in Hk. discriminate Hk. }
  assert (∀ name q, (name, q) ∈ queries → without_solution q S) as Hno.
  { intros name q Hq. apply (catalog_without_solution S name q); [|done].
    intros t [Ht Hk]%Hin.
    destruct (abox_of_subjects int df t Hdf Ht) as (_ & Hm & _).
    split; intros Hp; rewrite Hm in Hk by auto; discriminate Hk. }
  eexists _, w', S. split; [exact Hrun|]. split; [exact HS|]. split_and!.
  - intros t c [Ht Hk]%Hin Hc' [Hty|Hty]%elem_of_union.
    + by apply (tbox_no_class (subject t) c Hc').
    + destruct (abox_of_subjects int df t Hdf Ht) as (_ & _ & Hcl).
      rewrite (Hcl c Hc' Hty T) in Hk. discriminate Hk.
  - intros row n [j Hj]%list_elem_of_lookup Hn Hle.
    rewrite Forall_forall in Hdf.
    destruct (Hdf row) as [Hslash _]; [by eapply list_elem_of_lookup_2|].
    apply has_char_not_occurs in Hslash.
    apply elem_of_filter. split.
    + rewrite (kept_user_uri int T row (user_uri row, RDF "type", MH "Person") n
                 Hslash Hn eq_refl).
      by apply Z.leb_le.
    + apply elem_of_union. right. apply (fact_in_abox_of _ j row _ Hj).
      unfold fact_triples. set_solver.
  - exact Hno.
  - intros name q Hq. eexists _, _. split.
    + apply (measure_ok clock engine _ name q w' S (no_solution_answer q)); [exact HS|].
      apply Heng. by apply (Hno name).
    + cbn. by apply (catalog_row_counts name q).
Qed.

(** C3, the claim fails. On the subsample at threshold 2 of the graph of
    the three rows with countries USA, India, USA, an engine that answers
    a query without solution as rdflib does gives the roll-up query one
    row: the benchmark records a row count of 1, not 0. *)
Lemma C3_aggregate_counterexample :
  ∃ st, iterrows usa_india_usa init_state = ok st ∧
    ∃ sub_g w' b w'',
      create_subsampled_graph Py.int_ascii 0 2 (loaded (tbox ∪ abox st)) = (ok sub_g, w') ∧
      measure_query_time (λ _, 0%Z) engine_without_solution sub_g
        "roll_up_sleep_by_country" roll_up_sleep_by_country w' = (ok b, w'') ∧
      row_count b = 1.
Proof.
  destruct (subsample_of_run Py.int_ascii engine_without_solution (λ _, 0%Z)
              usa_india_usa 2)
    as (st & Hst & sub_g & w' & S & Hrun & _ & _ & _ & _ & Hm).
  - by vm_compute.
  - apply Forall_forall. intros row Hrow%list_elem_of_In. cbn in Hrow.
    destruct Hrow as [<-|[<-|[<-|[]]]];
      (split; [apply has_char_not_occurs; by vm_compute
              |apply (bool_decide_unpack _); by vm_compute]).
  - exact engine_without_solution_answers.
  - destruct (Hm "roll_up_sleep_by_country" roll_up_sleep_by_country)
      as (b & w'' & Hb & Hcount).
    { apply list_elem_of_In. cbn. tauto. }
    exists st. split; [exact Hst|]. exists sub_g, w', b, w''. auto.
Qed.

(** C3, as the code has it. Take rows that have the seventeen columns and
    whose [User_ID] cells have no slash and are read by [int]. The run
    ends, and for every threshold the subsampler, on the graph loaded from
    both files, returns a graph in which the persons whose identifier is
    within the threshold are still typed, but none of whose subjects is
    typed MentalHealth, Lifestyle or Measurement in the loaded graph. Each
    of the four queries has a pattern, on the sleep hours or on the work
    hours, that no triple of the subsample matches, so none has a solution
    there. With an engine that answers a query without solution as rdflib
    does (one row of unbound values when the query aggregates, no row
    otherwise) the benchmark records one row for the roll-up and the
    drill-down and no row for the slice and the dice. *)
Theorem C3_subsample_has_no_measures
    (int : string → option Z)
    (engine : graph → query → result (list (list Sparql.binding)))
    (clock : nat → Z) (df : list Row) (T : Z) :
  forallb has_columns df = true →
  Forall (λ row, ¬ occurs "/" (cell row "User_ID") ∧
                 is_Some (int (cell row "User_ID"))) df →
  answers_without_solution engine →
  ∃ st, iterrows df init_state = ok st ∧
    ∃ sub_g w' S,
      create_subsampled_graph int 0 T (loaded (tbox ∪ abox st)) = (ok sub_g, w') ∧
      graphs w' !! sub_g = Some S ∧
      (∀ t c, t ∈ S →
         c ∈ [MH "MentalHealth"; MH "Lifestyle"; MH "Measurement"] →
         (subject t, RDF "type", c) ∉ tbox ∪ abox st) ∧
      (∀ row n, row ∈ df → int (cell row "User_ID") = Some n → (n ≤ T)%Z →
         (user_uri row, RDF "type", MH "Person") ∈ S) ∧
      (∀ name q, (name, q) ∈ queries → without_solution q S) ∧
      (∀ name q, (name, q) ∈ queries →
         ∃ b w'', measure_query_time clock engine sub_g name q w' = (ok b, w'') ∧
                  row_count b = match select_avg q with Some _ => 1 | None => 0 end).
Proof. exact (subsample_of_run int engine clock df T). Qed.

(** C3 on the three rows with countries USA, India, USA and threshold 2:
    the persons 1 and 2 survive, and the four recorded row counts are 1, 1,
    0 and 0. *)
Lemma C3_subsample_has_no_measures_witness :
  ∃ st, iterrows usa_india_usa init_state = ok st ∧
    ∃ sub_g w' S,
      create_subsampled_graph Py.int_ascii 0 2 (loaded (tbox ∪ abox st)) = (ok sub_g, w') ∧
      graphs w' !! sub_g = Some S ∧
      (MH "user/1", RDF "type", MH "Person") ∈ S ∧
      (MH "user/2", RDF "type", MH "Person") ∈ S ∧
      (∀ name q, (name, q) ∈ queries →
         ∃ b w'', measure_query_time (λ _, 0%Z) engine_without_solution sub_g name q w'
                  = (ok b, w'') ∧
                  row_count b = match select_avg q with Some _ => 1 | None => 0 end).
Proof.
  destruct (C3_subsample_has_no_measures Py.int_ascii engine_without_solution (λ _, 0%Z)
              usa_india_usa 2)
    as (st & Hst & sub_g & w' & S & Hrun & HS & _ & Hp & _ & Hm).
  - by vm_compute.
  - apply Forall_forall. intros row Hrow%list_elem_of_In. cbn in Hrow.
    destruct Hrow as [<-|[<-|[<-|[]]]];
      (split; [apply has_char_not_occurs; by vm_compute
              |apply (bool_decide_unpack _); by vm_compute]).
  - exact engine_without_solution_answers.
  - exists st. split; [exact Hst|]. exists sub_g, w', S.
    split; [exact Hrun|]. split; [exact HS|]. split_and!.
    + assert (user_uri (usa_india_usa !!! 0%nat) = MH "user/1") as Heq
        by (vm_compute; reflexivity).
      rewrite <- Heq. apply (Hp _ 1%Z); [|by vm_compute|lia].
      apply (list_elem_of_lookup_2 _ 0%nat). reflexivity.
    + assert (user_uri (usa_india_usa !!! 1%nat) = MH "user/2") as Heq
        by (vm_compute; reflexivity).
      rewrite <- Heq. apply (Hp _ 2%Z); [|by vm_compute|lia].
      apply (list_elem_of_lookup_2 _ 1%nat). reflexivity.
    + exact Hm.
Defined.
